(** * Binance 15m move alert bot: a shallow embedding of [main.py]

    The bot polls every USDT-M perpetual symbol, computes the percentage
    move of the latest candle, and posts one Telegram alert per symbol and
    candle, remembering the alerts it has sent in a SQLite table.

    The development follows the layout of the script: Python values
    (floats, formatting, time), module-level configuration, the [alerts]
    table, the HTTP clients with their retry loops, the per-symbol worker,
    one scan cycle, and the scheduler loop. *)

From Stdlib Require Import ZArith Bool Lia Ascii.
From Stdlib Require Import DecimalString.
From Stdlib Require Import Floats.SpecFloat.
From stdpp Require Import base option list strings gmap.

Local Open Scope Z_scope.

(** ** Python floats

    A Python [float] is an IEEE 754 binary64 number.  The operations are
    the ones of [SpecFloat] at precision 53 and maximal exponent 1024,
    rounding to nearest, ties to even. *)

Definition float : Type := spec_float.

Module PyFloat.

Definition prec : Z := 53.
Definition emax : Z := 1024.

Definition sub : float -> float -> float := SFsub prec emax.
Definition mul : float -> float -> float := SFmul prec emax.
Definition ieee_div : float -> float -> float := SFdiv prec emax.
Definition abs : float -> float := SFabs.
Definition ltb : float -> float -> bool := SFltb.
Definition leb : float -> float -> bool := SFleb.

(** [a >= b] and [a > b]: false as soon as one side is NaN. *)
Definition geb (a b : float) : bool := leb b a.
Definition gtb (a b : float) : bool := ltb b a.

Definition is_zero (x : float) : bool :=
  match x with S754_zero _ => true | _ => false end.

Definition is_infinite (x : float) : bool :=
  match x with S754_infinity _ => true | _ => false end.

(** The exact integer [z] rounded to the nearest float. *)
Definition of_Z (z : Z) : float := binary_normalize prec emax z 0 false.

(** The exact quotient [n / d] of two integers, [d <> 0], rounded once.
    [SFdiv] does not need its arguments normalised, so the two integers are
    handed over as mantissas with exponent 0. *)
Definition of_ratio (n d : Z) : float :=
  match n, d with
  | 0, _ => S754_zero false
  | _, 0 => S754_nan
  | _, _ =>
      ieee_div (S754_finite (n <? 0) (Z.to_pos (Z.abs n)) 0)
               (S754_finite (d <? 0) (Z.to_pos (Z.abs d)) 0)
  end.

(** The floor of a finite float, as an exact integer. *)
Definition floor (x : float) : option Z :=
  match x with
  | S754_zero _ => Some 0
  | S754_finite s m e =>
      let v := if s then Z.neg m else Z.pos m in
      Some (if 0 <=? e then v * 2 ^ e else v / 2 ^ (- e))
  | _ => None
  end.

End PyFloat.

(** ** Decimal rendering *)

Definition str_of_N (n : N) : string :=
  NilEmpty.string_of_uint (N.to_uint n).

Definition str_of_Z (z : Z) : string :=
  match z with
  | Z.neg p => "-" +:+ str_of_N (N.pos p)
  | _ => str_of_N (Z.to_N z)
  end.

Fixpoint zeros (n : nat) : string :=
  match n with
  | O => ""
  | S n' => "0" +:+ zeros n'
  end.

(** [n] written with at least [w] digits, padded with zeros on the left. *)
Definition zero_pad (w : nat) (n : N) : string :=
  let s := str_of_N n in
  zeros (w - String.length s) +:+ s.

(** Round the exact value [m * 2^e * 10^d] to an integer, ties to even. *)
Definition scaled_round (d : nat) (m : positive) (e : Z) : Z :=
  let num := Z.pos m * 10 ^ Z.of_nat d in
  if 0 <=? e then num * 2 ^ e
  else
    let den := 2 ^ (- e) in
    let q := num / den in
    let r := num mod den in
    match 2 * r ?= den with
    | Lt => q
    | Gt => q + 1
    | Eq => if Z.even q then q else q + 1
    end.

(** The format specification [.{d}f], [d >= 1]: fixed notation with [d]
    digits after the point, the exact binary value correctly rounded. *)
Definition format_fixed (d : nat) (x : float) : string :=
  match x with
  | S754_nan => "nan"
  | S754_infinity s => (if s then "-" else "") +:+ "inf"
  | S754_zero s => (if s then "-" else "") +:+ "0." +:+ zeros d
  | S754_finite s m e =>
      let n := scaled_round d m e in
      let p := 10 ^ Z.of_nat d in
      (if s then "-" else "")
        +:+ str_of_N (Z.to_N (n / p)) +:+ "." +:+ zero_pad d (Z.to_N (n mod p))
  end.

(** ** [time.gmtime] and [time.strftime] *)

Record struct_time := mk_tm {
  tm_year : Z; tm_mon : Z; tm_mday : Z;
  tm_hour : Z; tm_min : Z; tm_sec : Z
}.

(** Proleptic Gregorian date of the day numbered [days] from 1970-01-01. *)
Definition civil_from_days (days : Z) : Z * Z * Z :=
  let z := days + 719468 in
  let era := z / 146097 in
  let doe := z - era * 146097 in
  let yoe := (doe - doe / 1460 + doe / 36524 - doe / 146096) / 365 in
  let doy := doe - (365 * yoe + yoe / 4 - yoe / 100) in
  let mp := (5 * doy + 2) / 153 in
  let d := doy - (153 * mp + 2) / 5 + 1 in
  let m := if mp <? 10 then mp + 3 else mp - 9 in
  let y := yoe + era * 400 in
  (if m <=? 2 then y + 1 else y, m, d).

Definition tm_of_seconds (secs : Z) : struct_time :=
  let '(y, m, d) := civil_from_days (secs / 86400) in
  let r := secs mod 86400 in
  mk_tm y m d (r / 3600) (r mod 3600 / 60) (r mod 60).

(** [time.strftime('%Y-%m-%d %H:%M:%S', t)] *)
Definition strftime_ymd_hms (t : struct_time) : string :=
  str_of_Z (tm_year t) +:+ "-" +:+ zero_pad 2 (Z.to_N (tm_mon t)) +:+ "-"
    +:+ zero_pad 2 (Z.to_N (tm_mday t)) +:+ " "
    +:+ zero_pad 2 (Z.to_N (tm_hour t)) +:+ ":"
    +:+ zero_pad 2 (Z.to_N (tm_min t)) +:+ ":"
    +:+ zero_pad 2 (Z.to_N (tm_sec t)).

(** ** Exceptions

    The exception classes the script can meet, with the two [isinstance]
    tests its [except] clauses perform. *)

Inductive exn :=
| ClientError                       (* aiohttp.ClientError: connection level *)
| ClientResponseError (status : Z)  (* raised by raise_for_status() *)
| ContentTypeError                  (* raised by r.json(), a ClientResponseError *)
| TimeoutError                      (* asyncio.TimeoutError: total timeout hit *)
| JSONDecodeError                   (* raised by r.json(), a ValueError *)
| ValueError
| ZeroDivisionError
| OverflowError
| OSError
| OperationalError                  (* sqlite3.OperationalError *)
| RuntimeError
| KeyboardInterrupt
| CancelledError                    (* asyncio.CancelledError *)
| SystemExit.

(** [isinstance(e, aiohttp.ClientError)] *)
Definition is_ClientError (e : exn) : bool :=
  match e with
  | ClientError | ClientResponseError _ | ContentTypeError => true
  | _ => false
  end.

(** [isinstance(e, Exception)]: the three others derive from
    [BaseException] only. *)
Definition is_Exception (e : exn) : bool :=
  match e with
  | KeyboardInterrupt | CancelledError | SystemExit => false
  | _ => true
  end.

(** ** Numbers that are either [int] or [float] *)

Inductive pynum :=
| PyInt (z : Z)
| PyFloat (x : float).

(** [float(z)] for an [int] operand of mixed arithmetic. *)
Definition int_to_float (z : Z) : exn + float :=
  let x := PyFloat.of_Z z in
  if PyFloat.is_infinite x then inl OverflowError else inr x.

(** [a / b] on two [int]s: the exact quotient, rounded once. *)
Definition int_truediv (a b : Z) : exn + float :=
  if b =? 0 then inl ZeroDivisionError
  else
    let x := PyFloat.of_ratio a b in
    if PyFloat.is_infinite x then inl OverflowError else inr x.

(** [a / b] on two [float]s. *)
Definition float_truediv (a b : float) : exn + float :=
  if PyFloat.is_zero b then inl ZeroDivisionError
  else inr (PyFloat.ieee_div a b).

(** [max(0, x)] for a float [x]: the first argument is kept unless a later
    one is strictly greater. *)
Definition max_0 (x : float) : pynum :=
  if PyFloat.gtb x (S754_zero false) then PyFloat x else PyInt 0.

(** ** [time.gmtime] on a float argument

    The argument is floored to a [time_t]; the C library then splits it,
    keeping the year minus 1900 in an [int]. *)

Definition in_int64 (z : Z) : bool := (- 2 ^ 63 <=? z) && (z <? 2 ^ 63).
Definition in_int32 (z : Z) : bool := (- 2 ^ 31 <=? z) && (z <? 2 ^ 31).

Definition gmtime (x : float) : exn + struct_time :=
  match PyFloat.floor x with
  | None => inl (match x with S754_nan => ValueError | _ => OverflowError end)
  | Some secs =>
      if negb (in_int64 secs) then inl OverflowError
      else
        let t := tm_of_seconds secs in
        if negb (in_int32 (tm_year t - 1900)) then inl OSError
        else if negb (in_int32 (tm_year t)) then inl OverflowError
        else inr t
  end.

(** ** Strings

    A string is the sequence of its bytes.  [strip] and [upper] are the
    ones of Python on ASCII text, which is what symbols and the settings
    are made of. *)

Definition nl : string := String "010"%char EmptyString.

(** [▲] and [▼], UTF-8 encoded. *)
Definition up_triangle : string :=
  String "226"%char (String "150"%char (String "178"%char EmptyString)).
Definition down_triangle : string :=
  String "226"%char (String "150"%char (String "188"%char EmptyString)).

Definition is_space (c : ascii) : bool :=
  let n := N_of_ascii c in
  ((9 <=? n) && (n <=? 13) || (28 <=? n) && (n <=? 32))%N.

Fixpoint lstrip (s : string) : string :=
  match s with
  | String c s' => if is_space c then lstrip s' else s
  | EmptyString => EmptyString
  end.

Fixpoint rstrip (s : string) : string :=
  match s with
  | EmptyString => EmptyString
  | String c s' =>
      match rstrip s' with
      | EmptyString => if is_space c then EmptyString else String c EmptyString
      | t => String c t
      end
  end.

(** [s.strip()] *)
Definition strip (s : string) : string := rstrip (lstrip s).

Definition upper_ascii (c : ascii) : ascii :=
  let n := N_of_ascii c in
  if ((97 <=? n) && (n <=? 122))%N then ascii_of_N (n - 32) else c.

(** [s.upper()] *)
Fixpoint upper (s : string) : string :=
  match s with
  | EmptyString => EmptyString
  | String c s' => String (upper_ascii c) (upper s')
  end.

(** [s.split(",")]: the pieces between commas, at least one piece. *)
Fixpoint split_comma_go (s acc : string) : list string :=
  match s with
  | EmptyString => [String.rev acc]
  | String c s' =>
      if Ascii.eqb c ","%char then String.rev acc :: split_comma_go s' EmptyString
      else split_comma_go s' (String c acc)
  end.

Definition split_comma (s : string) : list string := split_comma_go s EmptyString.

(** [sep.join(l)] *)
Fixpoint join (sep : string) (l : list string) : string :=
  match l with
  | [] => ""
  | [x] => x
  | x :: rest => x +:+ sep +:+ join sep rest
  end.

(** ** Module-level configuration *)

Record config := mk_config {
  INTERVAL : string;
  THRESHOLD : float;
  POLL_SECONDS : Z;
  QUOTE : string;
  EXCLUDED : gset string;
  TELEGRAM_BOT_TOKEN : string;
  TELEGRAM_CHAT_ID : string;
  DB_PATH : string
}.

(** [os.getenv(key, default)] on the process environment. *)
Definition getenv (env : gmap string string) (key dflt : string) : string :=
  default dflt (env !! key).

(** [load_dotenv()]: every variable of the [.env] file that the process
    environment does not define yet is added to it; those it defines keep
    their value. *)
Definition load_dotenv (dotenv env : gmap string string) : gmap string string :=
  env ∪ dotenv.

Section ModuleInit.

(** The built-ins [float] and [int] on strings; [None] stands for the
    [ValueError] they raise on a string they cannot read. *)
Variable py_float : string -> option float.
Variable py_int : string -> option Z.

Definition of_parse {A} (r : option A) : exn + A :=
  match r with Some a => inr a | None => inl ValueError end.

Definition read_EXCLUDED (env : gmap string string) : gset string :=
  if bool_decide (getenv env "EXCLUDED" "" = "") then ∅
  else list_to_set (split_comma (upper (getenv env "EXCLUDED" ""))).

(** The module body, top to bottom: five settings are read, then
    [load_dotenv()] runs, then the credentials and the database path are
    read. *)
Definition module_init (env dotenv : gmap string string) : exn + config :=
  let interval := getenv env "INTERVAL" "15m" in
  match of_parse (py_float (getenv env "THRESHOLD" "6")) with inl e => inl e | inr threshold =>
  match of_parse (py_int (getenv env "POLL_SECONDS" "60")) with inl e => inl e | inr poll =>
  let quote := getenv env "QUOTE" "USDT" in
  let excluded := read_EXCLUDED env in
  let env := load_dotenv dotenv env in
  let token := strip (getenv env "TELEGRAM_BOT_TOKEN" "") in
  let chat := strip (getenv env "TELEGRAM_CHAT_ID" "") in
  if bool_decide (token = "") || bool_decide (chat = "") then inl SystemExit
  else
    let db_path := getenv env "DB_PATH" "alerts.db" in
    inr (mk_config interval threshold poll quote excluded token chat db_path)
  end end.

End ModuleInit.

(** ** Data exchanged with the outside *)

(** One entry of the [symbols] array of [/fapi/v1/exchangeInfo]; a field is
    [None] when the key is absent, which is what [dict.get] returns. *)
Record symbol_info := mk_symbol_info {
  si_status : option string;
  si_contractType : option string;
  si_quoteAsset : option string;
  si_symbol : option string
}.

(** The dict built by [get_latest_15m_kline] from the first kline row:
    [int(k[0])], [float(k[1])] ... [float(k[4])], [int(k[6])].  The row is
    taken to have the documented shape, so the conversions succeed. *)
Record kline := mk_kline {
  open_time : Z;
  k_open : float;
  k_high : float;
  k_low : float;
  k_close : float;
  close_time : Z
}.

(** An HTTP response: its status and what [await r.json()] gives, a decoded
    body or the exception raised while decoding. *)
Record response (A : Type) := mk_response {
  status : Z;
  json : exn + A
}.
Arguments mk_response {A} _ _.
Arguments status {A} _.
Arguments json {A} _.

(** What [session.get] or [session.post] does: raise, or give a response. *)
Definition http_outcome (A : Type) : Type := exn + response A.

(** The outside world during one scan cycle.  The answer to a kline request
    depends on the symbol and on the attempt, the answer to a Telegram post
    on the text and on the attempt; [exchange_info] decodes to the value of
    [data.get("symbols", [])].  The two clock fields are the readings of
    [time.time()] before and after the cycle. *)
Record world := mk_world {
  exchange_info : http_outcome (list symbol_info);
  klines : string -> nat -> http_outcome (list kline);
  telegram : string -> nat -> http_outcome unit;
  clock_start : float;
  clock_end : float
}.

(** What the script prints. *)
Inductive printed :=
| Starting
| Line (s : string)
| ErrorInCycle (e : exn).

(** The observable actions, in the order they happen. *)
Inductive event :=
| GetExchangeInfo
| GetKlines (symbol : string) (attempt : nat)
| PostTelegram (text : string) (attempt : nat)
| Sleep (seconds : pynum)
| Print (p : printed).

(** ** State and effects

    [db] is the file at [DB_PATH]: [None] while the [alerts] table does not
    exist, otherwise its rows in insertion order.  [alerts] is the list that
    [check_once] creates and its workers append to. *)

Record state := mk_state {
  db : option (list (string * Z));
  alerts : list (string * float)
}.

(** The result of running a computation: what it returned or raised, the
    state it left, and the actions it performed. *)
Record outcome (A : Type) := mk_outcome {
  value : exn + A;
  final : state;
  events : list event
}.
Arguments mk_outcome {A} _ _ _.
Arguments value {A} _.
Arguments final {A} _.
Arguments events {A} _.

Definition M (A : Type) : Type := state -> outcome A.

Definition ret {A} (a : A) : M A := fun st => mk_outcome (inr a) st [].

Definition raise {A} (e : exn) : M A := fun st => mk_outcome (inl e) st [].

Definition bind {A B} (m : M A) (f : A -> M B) : M B := fun st =>
  let r := m st in
  match value r with
  | inl e => mk_outcome (inl e) (final r) (events r)
  | inr a =>
      let r' := f a (final r) in
      mk_outcome (value r') (final r') (events r ++ events r')
  end.

Notation "x <- m ;; k" := (bind m (fun x => k))
  (at level 100, m at next level, right associativity).
Notation "m ;; k" := (bind m (fun _ => k))
  (at level 100, right associativity).

(** [try: body  except C as e: handler e], where [is_C] is [isinstance(_, C)]. *)
Definition try_except {A} (body : M A) (is_C : exn -> bool) (handler : exn -> M A) : M A :=
  fun st =>
    let r := body st in
    match value r with
    | inl e =>
        if is_C e then
          let r' := handler e (final r) in
          mk_outcome (value r') (final r') (events r ++ events r')
        else r
    | inr _ => r
    end.

Definition emit (e : event) : M unit := fun st => mk_outcome (inr tt) st [e].

Definition lift {A} (r : exn + A) : M A :=
  match r with inl e => raise e | inr a => ret a end.

(** [await asyncio.sleep(d)] *)
Definition sleep (d : pynum) : M unit := emit (Sleep d).

Definition print (p : printed) : M unit := emit (Print p).

(** The body of a [for] loop either falls through to the next iteration
    ([continue] included) or leaves the function with [return v]. *)
Inductive ctl (A : Type) :=
| Continue
| Return (v : A).
Arguments Continue {A}.
Arguments Return {A} _.

(** [for i in range(...): body i] followed by [return after]. *)
Fixpoint for_range {A} (range : list nat) (body : nat -> M (ctl A)) (after : A) : M A :=
  match range with
  | [] => ret after
  | i :: rest =>
      c <- body i ;;
      match c with
      | Return v => ret v
      | Continue => for_range rest body after
      end
  end.

(** ** The [alerts] table *)

Definition row_eqb (a b : string * Z) : bool :=
  String.eqb (fst a) (fst b) && (snd a =? snd b).

Definition has_row (key : string * Z) (rows : list (string * Z)) : bool :=
  existsb (row_eqb key) rows.

(** [sqlite3] binds a Python [int] to a 64-bit SQLite INTEGER and raises
    [OverflowError] when it does not fit. *)
Definition bind_int (z : Z) : M unit :=
  if in_int64 z then ret tt else raise OverflowError.

(** [CREATE TABLE IF NOT EXISTS alerts (..., PRIMARY KEY(symbol, open_time))] *)
Definition db_init : M unit := fun st =>
  mk_outcome (inr tt)
    (mk_state (Some (default [] (db st))) (alerts st)) [].

(** [SELECT 1 FROM alerts WHERE symbol=? AND open_time=?], and whether a row
    came back. *)
Definition already_alerted (symbol : string) (ot : Z) : M bool :=
  bind_int ot ;;
  fun st =>
    match db st with
    | None => raise OperationalError st
    | Some rows => ret (has_row (symbol, ot) rows) st
    end.

(** [INSERT OR IGNORE INTO alerts(symbol, open_time) VALUES (?,?)]: the row
    is added unless the primary key is taken. *)
Definition mark_alerted (symbol : string) (ot : Z) : M unit :=
  bind_int ot ;;
  fun st =>
    match db st with
    | None => raise OperationalError st
    | Some rows =>
        if has_row (symbol, ot) rows then ret tt st
        else mk_outcome (inr tt) (mk_state (Some (rows ++ [(symbol, ot)])) (alerts st)) []
    end.

(** [alerts.append(a)] *)
Definition append_alert (a : string * float) : M unit := fun st =>
  mk_outcome (inr tt) (mk_state (db st) (alerts st ++ [a])) [].

(** ** The clients, the worker and one scan cycle *)

Section Bot.

Variable cfg : config.
Variable w : world.

(** [r.raise_for_status()]: raises unless the status is below 400. *)
Definition raise_for_status {A} (r : response A) : M unit :=
  if 400 <=? status r then raise (ClientResponseError (status r)) else ret tt.

(** [status in (c1, c2, ...)] *)
Definition status_in (s : Z) (codes : list Z) : bool := existsb (Z.eqb s) codes.

(** The loop of [get_symbols] over the entries, [continue] by [continue]. *)
Fixpoint keep_symbols (entries : list symbol_info) : list string :=
  match entries with
  | [] => []
  | s :: rest =>
      if negb (bool_decide (si_status s = Some "TRADING")) then keep_symbols rest
      else if negb (bool_decide (si_contractType s = Some "PERPETUAL")) then keep_symbols rest
      else if negb (bool_decide (si_quoteAsset s = Some (QUOTE cfg))) then keep_symbols rest
      else
        match si_symbol s with
        | None => keep_symbols rest
        | Some sym =>
            if bool_decide (sym = "") || bool_decide (sym ∈ EXCLUDED cfg)
            then keep_symbols rest
            else sym :: keep_symbols rest
        end
  end.

Definition get_symbols : M (list string) :=
  emit GetExchangeInfo ;;
  r <- lift (exchange_info w) ;;
  raise_for_status r ;;
  data <- lift (json r) ;;
  ret (keep_symbols data).

(** The delay before the next attempt: [1 + attempt * 2]. *)
Definition backoff (attempt : nat) : pynum := PyInt (1 + Z.of_nat attempt * 2).

(** One turn of the [for attempt in range(3)] loop of
    [get_latest_15m_kline]: the [try] block and its [except] clause. *)
Definition kline_attempt (symbol : string) (attempt : nat) : M (ctl (option kline)) :=
  try_except
    (emit (GetKlines symbol attempt) ;;
     r <- lift (klines w symbol attempt) ;;
     if status_in (status r) [418; 429; 451] then
       sleep (backoff attempt) ;;
       ret Continue
     else
       raise_for_status r ;;
       arr <- lift (json r) ;;
       match arr with
       | [] => ret (Return None)
       | k :: _ => ret (Return (Some k))
       end)
    is_ClientError
    (fun _ => sleep (backoff attempt) ;; ret Continue).

Definition get_latest_15m_kline (symbol : string) : M (option kline) :=
  for_range (seq 0 3) (kline_attempt symbol) None.

(** One turn of the retry loop of [send_telegram]. *)
Definition telegram_attempt (text : string) (attempt : nat) : M (ctl bool) :=
  try_except
    (emit (PostTelegram text attempt) ;;
     r <- lift (telegram w text attempt) ;;
     if status_in (status r) [429; 500; 502; 503; 504] then
       sleep (backoff attempt) ;;
       ret Continue
     else
       raise_for_status r ;;
       ret (Return true))
    is_ClientError
    (fun _ => sleep (backoff attempt) ;; ret Continue).

Definition send_telegram (text : string) : M bool :=
  for_range (seq 0 3) (telegram_attempt text) false.

Definition fmt_pct (p : float) : string := format_fixed 2 p +:+ "%".

Definition make_alert_text (symbol : string) (k : kline) (pct : float) : M string :=
  let direction :=
    if PyFloat.geb (k_close k) (k_open k) then up_triangle +:+ " UP"
    else down_triangle +:+ " DOWN" in
  secs <- lift (int_truediv (open_time k) 1000) ;;
  t <- lift (gmtime secs) ;;
  ret ("<b>" +:+ symbol +:+ "</b> " +:+ direction +:+ nl
       +:+ "Interval: " +:+ INTERVAL cfg +:+ " | Move: <b>"
       +:+ fmt_pct (PyFloat.abs pct) +:+ "</b>" +:+ nl
       +:+ "Open: " +:+ format_fixed 6 (k_open k)
       +:+ " | Close: " +:+ format_fixed 6 (k_close k) +:+ nl
       +:+ "High: " +:+ format_fixed 6 (k_high k)
       +:+ " | Low: " +:+ format_fixed 6 (k_low k) +:+ nl
       +:+ "Open Time: " +:+ strftime_ymd_hms t +:+ " UTC").

(** [(k["close"] - k["open"]) / k["open"] * 100.0] *)
Definition percent_move (k : kline) : exn + float :=
  match float_truediv (PyFloat.sub (k_close k) (k_open k)) (k_open k) with
  | inl e => inl e
  | inr q => inr (PyFloat.mul q (PyFloat.of_Z 100))
  end.

(** What [worker] does with a candle it has fetched. *)
Definition evaluate (sym : string) (k : kline) : M unit :=
  pct <- lift (percent_move k) ;;
  if PyFloat.geb (PyFloat.abs pct) (THRESHOLD cfg) then
    seen <- already_alerted sym (open_time k) ;;
    if negb seen then
      text <- make_alert_text sym k pct ;;
      ok <- send_telegram text ;;
      if ok then
        mark_alerted sym (open_time k) ;;
        append_alert (sym, pct)
      else ret tt
    else ret tt
  else ret tt.

(** The closure [worker] of [check_once].  The semaphore only bounds how
    many fetches are in flight and has no counterpart here. *)
Definition worker (sym : string) : M unit :=
  k <- get_latest_15m_kline sym ;;
  match k with
  | None => ret tt
  | Some k => evaluate sym k
  end.

(** [await asyncio.gather(...)] over one [worker(sym)] per symbol, along the
    schedule in which each worker finishes before the next one resumes.  The
    first exception a worker raises is raised by [gather] in [check_once],
    which then leaves the [async with] block and closes the session the
    other workers would need; they are not run. *)
Fixpoint gather (symbols : list string) : M unit :=
  match symbols with
  | [] => ret tt
  | sym :: rest => worker sym ;; gather rest
  end.

Definition new_alerts : M unit := fun st =>
  mk_outcome (inr tt) (mk_state (db st) []) [].

Definition get_alerts : M (list (string * float)) := fun st =>
  mk_outcome (inr (alerts st)) st [].

Definition check_once : M (list (string * float)) :=
  db_init ;;
  symbols <- get_symbols ;;
  new_alerts ;;
  gather symbols ;;
  get_alerts.

(** ["Sent N alerts: " + ", ".join(f"{s}:{abs(p):.2f}%" for s,p in alerts)] *)
Definition sent_line (sent : list (string * float)) : string :=
  "Sent " +:+ str_of_N (N.of_nat (length sent)) +:+ " alerts: "
    +:+ join ", " (map (fun a => fst a +:+ ":" +:+ fmt_pct (PyFloat.abs (snd a))) sent).

(** One turn of the [while True] loop of [main_loop]. *)
Definition loop_iteration : M unit :=
  let start := clock_start w in
  try_except
    (sent <- check_once ;;
     match sent with
     | [] => print (Line "No new alerts this cycle.")
     | _ => print (Line (sent_line sent))
     end)
    is_Exception
    (fun e => print (ErrorInCycle e)) ;;
  let elapsed := PyFloat.sub (clock_end w) start in
  poll <- lift (int_to_float (POLL_SECONDS cfg)) ;;
  sleep (max_0 (PyFloat.sub poll elapsed)).

End Bot.

(** ** The scheduler loop

    [main_loop] never returns, so it is run for a number of turns: turn [i]
    meets the world [ws i].  The result is [inr tt] when the loop is still
    running after these turns, and [inl e] when [e] has left it. *)

Fixpoint loop_turns (cfg : config) (ws : nat -> world) (i n : nat) : M unit :=
  match n with
  | O => ret tt
  | S n' => loop_iteration cfg (ws i) ;; loop_turns cfg ws (S i) n'
  end.

Definition main_loop (cfg : config) (ws : nat -> world) (n : nat) : M unit :=
  print Starting ;;
  loop_turns cfg ws O n.

(** The texts of the Telegram posts among some events: one per attempt. *)
Definition posts (evs : list event) : list string :=
  omap (fun e => match e with PostTelegram t _ => Some t | _ => None end) evs.

(** The delays slept among some events. *)
Definition sleeps (evs : list event) : list pynum :=
  omap (fun e => match e with Sleep d => Some d | _ => None end) evs.

(** The kline requests among some events. *)
Definition kline_requests (evs : list event) : list (string * nat) :=
  omap (fun e => match e with GetKlines s a => Some (s, a) | _ => None end) evs.

(** ** Notions used in the statements *)

(** The filter of [list_symbols] as the specification words it: a symbol
    is listed when its entry is trading, perpetual, quoted in the configured
    currency, and the symbol is not excluded. *)
Definition passes_filters (cfg : config) (s : symbol_info) (sym : string) : bool :=
  bool_decide (si_status s = Some "TRADING")
  && bool_decide (si_contractType s = Some "PERPETUAL")
  && bool_decide (si_quoteAsset s = Some (QUOTE cfg))
  && negb (bool_decide (sym ∈ EXCLUDED cfg)).

Definition spec_list_symbols (cfg : config) (entries : list symbol_info) : list string :=
  omap (fun s =>
          match si_symbol s with
          | Some sym => if passes_filters cfg s sym then Some sym else None
          | None => None
          end) entries.

Definition nonempty (s : string) : bool := negb (bool_decide (s = "")).

(** A computation respects a relation [R] on states and a property [P] of
    event lists when every run relates the state it starts in to the state
    it leaves, and performs events that satisfy [P]. *)
Definition respects {A} (R : state -> state -> Prop) (P : list event -> Prop)
    (m : M A) : Prop :=
  forall st, R st (final (m st)) /\ P (events (m st)).

Definition no_posts (evs : list event) : Prop := posts evs = [].

Definition any_events (evs : list event) : Prop := True.

(** The table only grows: it stays created, and keeps the rows it has. *)
Definition grows (st st' : state) : Prop :=
  forall rows, db st = Some rows ->
    exists rows', db st' = Some rows'
      /\ forall key, has_row key rows = true -> has_row key rows' = true.

(** Scan cycles run one after the other, each under its own configuration
    and in its own world, on the same database file. *)
Fixpoint run_cycles (cycles : list (config * world)) (st : state) : state :=
  match cycles with
  | [] => st
  | (cfg, w) :: rest => run_cycles rest (final (check_once cfg w st))
  end.

(** The answers after which the next attempt is due.  The specification
    names two: a rate-limit or block status, and a transport error, which
    the script takes to be an [aiohttp.ClientError] raised by the request.
    The script treats any other status from 400 on the same way, since
    [raise_for_status()] turns it into a [ClientResponseError]. *)
Definition rate_limited {A} (o : http_outcome A) : bool :=
  match o with
  | inr r => status_in (status r) [418; 429; 451]
  | inl _ => false
  end.

Definition transport_error {A} (o : http_outcome A) : bool :=
  match o with
  | inl e => is_ClientError e
  | inr _ => false
  end.

Definition error_status {A} (o : http_outcome A) : bool :=
  match o with
  | inr r => 400 <=? status r
  | inl _ => false
  end.

Definition must_retry {A} (o : http_outcome A) : bool :=
  rate_limited o || transport_error o || error_status o.

(** ** Concrete configurations and worlds *)

Definition cfg_default : config :=
  mk_config "15m" (PyFloat.of_Z 6) 60 "USDT" ∅ "token" "chat" "alerts.db".

Definition ok_response {A} (body : A) : http_outcome A :=
  inr (mk_response 200 (inr body)).

Definition status_response {A} (code : Z) : http_outcome A :=
  inr (mk_response code (inl ContentTypeError)).

Definition perpetual (quote sym : string) : symbol_info :=
  mk_symbol_info (Some "TRADING") (Some "PERPETUAL") (Some quote) (Some sym).

(** ABCUSDT: open 100.0, close 94.0, open time 1000. *)
Definition candle_abc : kline :=
  mk_kline 1000 (PyFloat.of_Z 100) (PyFloat.of_Z 100) (PyFloat.of_Z 94)
    (PyFloat.of_Z 94) 900999.

(** XYZUSDT: open 50.0, close 51.0, open time 2000. *)
Definition candle_xyz : kline :=
  mk_kline 2000 (PyFloat.of_Z 50) (PyFloat.of_Z 51) (PyFloat.of_Z 50)
    (PyFloat.of_Z 51) 901999.


Definition klines_of (table : list (string * kline)) (sym : string) (attempt : nat)
  : http_outcome (list kline) :=
  ok_response (omap (fun p => if String.eqb (fst p) sym then Some (snd p) else None) table).

(** A world in which every request is answered at once with status 200. *)
Definition calm_world (table : list (string * kline)) : world :=
  mk_world (ok_response (map (fun p => perpetual "USDT" (fst p)) table))
    (klines_of table) (fun _ _ => ok_response tt)
    (PyFloat.of_Z 1700000000) (PyFloat.of_Z 1700000002).

(** The same, with a Telegram endpoint that answers 503 to every post. *)
Definition telegram_down (table : list (string * kline)) : world :=
  mk_world (ok_response (map (fun p => perpetual "USDT" (fst p)) table))
    (klines_of table) (fun _ _ => status_response 503)
    (PyFloat.of_Z 1700000000) (PyFloat.of_Z 1700000002).

(** A world whose exchange-info request fails at the connection level. *)
Definition universe_down : world :=
  mk_world (inl ClientError) (fun _ _ => inl ClientError)
    (fun _ _ => ok_response tt)
    (PyFloat.of_Z 1700000000) (PyFloat.of_Z 1700000090).

Definition fresh : state := mk_state None [].

(** The alert for ABCUSDT falling from 100.0 to 94.0 in the candle opened
    at 1000 ms. *)
Definition abc_text : string :=
  "<b>ABCUSDT</b> " +:+ down_triangle +:+ " DOWN" +:+ nl
  +:+ "Interval: 15m | Move: <b>6.00%</b>" +:+ nl
  +:+ "Open: 100.000000 | Close: 94.000000" +:+ nl
  +:+ "High: 100.000000 | Low: 94.000000" +:+ nl
  +:+ "Open Time: 1970-01-01 00:00:01 UTC".

(** An exchange-info answer with one entry, which passes the four filters
    and has the empty string for symbol. *)
Definition nameless_world : world :=
  mk_world (ok_response [perpetual "USDT" ""])
    (fun _ _ => inl ClientError) (fun _ _ => ok_response tt)
    (PyFloat.of_Z 1700000000) (PyFloat.of_Z 1700000002).



(** The state left by a first cycle that notified ABCUSDT. *)
Definition after_first_alert : state :=
  final (check_once cfg_default (calm_world [("ABCUSDT", candle_abc)]) fresh).

Definition empty_table : state := mk_state (Some []) [].

(** A [.env] file that sets every variable the script reads. *)
Definition full_dotenv : gmap string string :=
  {[ "INTERVAL" := "1h"; "THRESHOLD" := "3"; "POLL_SECONDS" := "5";
     "QUOTE" := "BUSD"; "EXCLUDED" := "btcusdt";
     "TELEGRAM_BOT_TOKEN" := " 123:abc "; "TELEGRAM_CHAT_ID" := "42";
     "DB_PATH" := "state.db" ]}.

Definition cfg_from_full_dotenv : config :=
  mk_config "15m" (PyFloat.of_Z 6) 60 "USDT" ∅ "123:abc" "42" "state.db".

(** Simple readers of decimal integers, used where a concrete [int] or
    [float] built-in is wanted. *)
Definition digit_value (c : ascii) : option Z :=
  let n := N_of_ascii c in
  if ((48 <=? n) && (n <=? 57))%N then Some (Z.of_N (n - 48)) else None.

Fixpoint read_digits (s : string) (acc : Z) : option Z :=
  match s with
  | EmptyString => Some acc
  | String c s' =>
      match digit_value c with
      | Some d => read_digits s' (10 * acc + d)
      | None => None
      end
  end.

Definition read_int (s : string) : option Z :=
  match s with
  | EmptyString => None
  | _ => read_digits s 0
  end.

Definition read_float (s : string) : option float :=
  option_map PyFloat.of_Z (read_int s).

(** ** Further notions used in the statements *)

(** The answers after which [send_telegram] tries again: an
    [aiohttp.ClientError] raised by the request, a listed status, or any
    other status that [raise_for_status()] refuses. *)
Definition telegram_retry (o : http_outcome unit) : bool :=
  match o with
  | inl e => is_ClientError e
  | inr r => status_in (status r) [429; 500; 502; 503; 504] || (400 <=? status r)
  end.

(** The exchange-info requests among some events. *)
Definition exchange_requests (evs : list event) : list unit :=
  omap (fun e => match e with GetExchangeInfo => Some tt | _ => None end) evs.

(** The symbols [get_symbols] returns in a world; none when it raises. *)
Definition listed (cfg : config) (w : world) : list string :=
  match exchange_info w with
  | inr r =>
      if 400 <=? status r then []
      else match json r with
           | inr data => keep_symbols cfg data
           | inl _ => []
           end
  | inl _ => []
  end.

(** The reasons for which [get_symbols] raises [e]: the request raises it,
    or is answered with a status from 400 on, or its body does not decode. *)
Definition universe_failure (w : world) (e : exn) : Prop :=
  exchange_info w = inl e
  \/ (exists r, exchange_info w = inr r /\ 400 <= status r
                /\ e = ClientResponseError (status r))
  \/ (exists r, exchange_info w = inr r /\ status r < 400 /\ json r = inl e).

(** The table, when it exists, has pairwise distinct rows whose open times
    fit a 64-bit integer. *)
Definition table_ok (st : state) : Prop :=
  match db st with
  | None => True
  | Some rows => NoDup rows /\ Forall (fun r => in_int64 (snd r) = true) rows
  end.

(** A delay that is an [int] from 0 on, or a float above 0. *)
Definition positive_delay (d : pynum) : Prop :=
  match d with
  | PyInt z => 0 <= z
  | PyFloat x => PyFloat.gtb x (S754_zero false) = true
  end.

Definition delays_ok (evs : list event) : Prop :=
  Forall (fun e => match e with Sleep d => positive_delay d | _ => True end) evs.

(** Every kline request among the events is for one of [symbols]. *)
Definition requests_within (symbols : list string) (evs : list event) : Prop :=
  Forall (fun e => match e with GetKlines s _ => s ∈ symbols | _ => True end) evs.

Definition any_states (a b : state) : Prop := True.

Definition keeps_table_ok (a b : state) : Prop := table_ok a -> table_ok b.

(** An answer to a kline request that ends [get_latest_15m_kline] with the
    exception [e]: [e] is not an [aiohttp.ClientError], and it is raised by
    the request itself or by the decoding of an accepted response. *)
Definition unretried (o : http_outcome (list kline)) (e : exn) : Prop :=
  is_ClientError e = false
  /\ (o = inl e
      \/ exists s, o = inr (mk_response s (inl e)) /\ s < 400
                   /\ status_in s [418; 429; 451] = false).

(** A world whose kline request times out at the second attempt, after a
    429. *)
Definition timeout_world : world :=
  mk_world (ok_response [perpetual "USDT" "ABCUSDT"])
    (fun _ attempt => match attempt with O => status_response 429 | _ => inl TimeoutError end)
    (fun _ _ => ok_response tt)
    (PyFloat.of_Z 1700000000) (PyFloat.of_Z 1700000002).

(** A world in which Telegram refuses the credentials: 401 to every post. *)
Definition unauthorized_world : world :=
  mk_world (ok_response [perpetual "USDT" "ABCUSDT"])
    (klines_of [("ABCUSDT", candle_abc)]) (fun _ _ => status_response 401)
    (PyFloat.of_Z 1700000000) (PyFloat.of_Z 1700000002).

(** A world in which Telegram answers 502, then 200. *)
Definition flaky_telegram_world : world :=
  mk_world (ok_response [perpetual "USDT" "ABCUSDT"])
    (klines_of [("ABCUSDT", candle_abc)])
    (fun _ attempt => match attempt with O => status_response 502 | _ => ok_response tt end)
    (PyFloat.of_Z 1700000000) (PyFloat.of_Z 1700000002).

(** A world in which the post to Telegram times out at the first attempt. *)
Definition telegram_timeout_world : world :=
  mk_world (ok_response [perpetual "USDT" "ABCUSDT"])
    (klines_of [("ABCUSDT", candle_abc)]) (fun _ _ => inl TimeoutError)
    (PyFloat.of_Z 1700000000) (PyFloat.of_Z 1700000002).


(** A world whose exchange-info request is interrupted from the keyboard. *)
Definition interrupted_world : world :=
  mk_world (inl KeyboardInterrupt) (fun _ _ => inl ClientError)
    (fun _ _ => ok_response tt)
    (PyFloat.of_Z 1700000000) (PyFloat.of_Z 1700000002).

(** A candle that opened and closed at 100.0. *)
Definition candle_flat : kline :=
  mk_kline 4000 (PyFloat.of_Z 100) (PyFloat.of_Z 101) (PyFloat.of_Z 99)
    (PyFloat.of_Z 100) 903999.

(** A candle whose open price is NaN. *)
Definition candle_nan : kline :=
  mk_kline 5000 S754_nan (PyFloat.of_Z 101) (PyFloat.of_Z 99)
    (PyFloat.of_Z 100) 904999.


(** A process environment that sets the credentials and an exclusion list
    in lower case. *)
Definition env_excluding : gmap string string :=
  {[ "EXCLUDED" := "btcusdt,ethusdt";
     "TELEGRAM_BOT_TOKEN" := "123:abc"; "TELEGRAM_CHAT_ID" := "42" ]}.

Definition cfg_excluding : config :=
  mk_config "15m" (PyFloat.of_Z 6) 60 "USDT" {[ "BTCUSDT"; "ETHUSDT" ]}
    "123:abc" "42" "alerts.db".

(** * Properties *)

(** ** The monad *)

Lemma bind_ok {A B} (m : M A) (f : A -> M B) st a :
  value (m st) = inr a ->
  bind m f st =
    mk_outcome (value (f a (final (m st)))) (final (f a (final (m st))))
      (events (m st) ++ events (f a (final (m st)))).
Proof. intros H. unfold bind. now rewrite H. Qed.

Lemma bind_raise {A B} (m : M A) (f : A -> M B) st e :
  value (m st) = inl e ->
  bind m f st = mk_outcome (inl e) (final (m st)) (events (m st)).
Proof. intros H. unfold bind. now rewrite H. Qed.

Lemma posts_app l1 l2 : posts (l1 ++ l2) = posts l1 ++ posts l2.
Proof. apply omap_app. Qed.

(** ** The [alerts] table *)

Lemma row_eqb_eq a b : row_eqb a b = true <-> a = b.
Proof.
  destruct a as [s1 z1], b as [s2 z2]. unfold row_eqb. simpl.
  rewrite andb_true_iff, String.eqb_eq, Z.eqb_eq.
  split; [intros [-> ->]; reflexivity | intros [= -> ->]; auto].
Qed.

Lemma has_row_elem_of key rows : has_row key rows = true <-> key ∈ rows.
Proof.
  unfold has_row. rewrite existsb_exists. split.
  - intros [x [Hin Heq]]. apply row_eqb_eq in Heq. subst.
    now apply list_elem_of_In.
  - intros Hin. exists key. split; [now apply list_elem_of_In | now apply row_eqb_eq].
Qed.

Lemma has_row_app key rows more :
  has_row key (rows ++ more) = has_row key rows || has_row key more.
Proof. unfold has_row. apply existsb_app. Qed.

Lemma has_row_self key : has_row key [key] = true.
Proof. apply has_row_elem_of, list_elem_of_singleton. reflexivity. Qed.

(** C4: [mark_alerted] is idempotent.  Whatever the state of the database
    and whatever the key, a second call with the same key returns or raises
    as the first one did and leaves the state the first call left; and when
    the table exists with pairwise distinct rows and the open time fits a
    SQLite integer, both calls return normally, the rows stay pairwise
    distinct, and the key is among them. *)
Theorem mark_alerted_idempotent (symbol : string) (ot : Z) (st : state) :
  let once := mark_alerted symbol ot st in
  let twice := mark_alerted symbol ot (final once) in
  final twice = final once
  /\ value twice = value once
  /\ events twice = []
  /\ (forall rows, db st = Some rows -> NoDup rows -> in_int64 ot = true ->
      value once = inr tt /\ value twice = inr tt
      /\ exists rows', db (final twice) = Some rows' /\ NoDup rows'
                       /\ (symbol, ot) ∈ rows').
Proof.
  unfold mark_alerted, bind_int, bind, ret, raise.
  destruct (in_int64 ot) eqn:Hr; simpl.
  - destruct (db st) as [rows|] eqn:Hdb; simpl.
    + destruct (has_row (symbol, ot) rows) eqn:Hrow; simpl; rewrite ?Hdb; simpl.
      * rewrite Hrow. simpl. split; [|split; [|split]]; try reflexivity.
        intros rows0 [= <-] Hnd _. split; [|split]; try reflexivity.
        exists rows. split; [|split]; try assumption; try reflexivity.
        now apply has_row_elem_of.
      * rewrite has_row_app, has_row_self, orb_true_r. simpl.
        split; [|split; [|split]]; try reflexivity.
        intros rows0 [= <-] Hnd _. split; [|split]; try reflexivity.
        exists (rows ++ [(symbol, ot)]). split; [|split]; try reflexivity.
        -- apply NoDup_app. split; [|split]; try assumption.
           ++ intros x Hx ->%list_elem_of_singleton.
              apply has_row_elem_of in Hx. congruence.
           ++ apply NoDup_singleton.
        -- apply elem_of_app. right. now apply list_elem_of_singleton.
    + rewrite Hdb. simpl. split; [|split; [|split]]; try reflexivity. intros rows [=].
  - split; [|split; [|split]]; try reflexivity. intros rows _ _ [=].
Qed.

(** ** Frame properties of the combinators *)

Section Respects.

Variable R : state -> state -> Prop.
Variable P : list event -> Prop.
Hypothesis R_refl : forall st, R st st.
Hypothesis R_trans : forall a b c, R a b -> R b c -> R a c.
Hypothesis P_nil : P [].
Hypothesis P_app : forall a b, P a -> P b -> P (a ++ b).

Lemma respects_ret {A} (a : A) : respects R P (ret a).
Proof. intros st. simpl. auto. Qed.

Lemma respects_raise {A} (e : exn) : respects R P (@raise A e).
Proof. intros st. simpl. auto. Qed.

Lemma respects_lift {A} (r : exn + A) : respects R P (lift r).
Proof. destruct r; [apply respects_raise | apply respects_ret]. Qed.

Lemma respects_emit (e : event) : P [e] -> respects R P (emit e).
Proof. intros H st. simpl. auto. Qed.

Lemma respects_bind {A B} (m : M A) (f : A -> M B) :
  respects R P m -> (forall a, respects R P (f a)) -> respects R P (bind m f).
Proof.
  intros Hm Hf st. unfold bind. destruct (Hm st) as [HR HP].
  destruct (value (m st)) as [e | a]; simpl; [auto |].
  destruct (Hf a (final (m st))) as [HR' HP']. eauto.
Qed.

Lemma respects_try_except {A} (body : M A) is_C (handler : exn -> M A) :
  respects R P body -> (forall e, respects R P (handler e)) ->
  respects R P (try_except body is_C handler).
Proof.
  intros Hm Hh st. unfold try_except. destruct (Hm st) as [HR HP].
  destruct (value (body st)) as [e | a]; [| auto].
  destruct (is_C e); [| auto].
  destruct (Hh e (final (body st))) as [HR' HP']. simpl. eauto.
Qed.

Lemma respects_for_range {A} (range : list nat) (body : nat -> M (ctl A)) (after : A) :
  (forall i, respects R P (body i)) -> respects R P (for_range range body after).
Proof.
  intros Hb. induction range as [| i rest IH]; simpl.
  - apply respects_ret.
  - apply respects_bind; [apply Hb |].
    intros [| v]; [exact IH | apply respects_ret].
Qed.

Lemma respects_if {A} (b : bool) (m1 m2 : M A) :
  respects R P m1 -> respects R P m2 -> respects R P (if b then m1 else m2).
Proof. now destruct b. Qed.

End Respects.

Lemma no_posts_nil : no_posts [].
Proof. reflexivity. Qed.

Lemma no_posts_app a b : no_posts a -> no_posts b -> no_posts (a ++ b).
Proof. unfold no_posts. rewrite posts_app. now intros -> ->. Qed.

Lemma any_events_app a b : any_events a -> any_events b -> any_events (a ++ b).
Proof. easy. Qed.

Lemma grows_refl st : grows st st.
Proof. intros rows H. eauto. Qed.

Lemma grows_trans a b c : grows a b -> grows b c -> grows a c.
Proof.
  intros Hab Hbc rows H.
  destruct (Hab rows H) as [rows' [H' Hk]].
  destruct (Hbc rows' H') as [rows'' [H'' Hk']]. eauto.
Qed.

Lemma eq_trans_state (a b c : state) : a = b -> b = c -> a = c.
Proof. congruence. Qed.

Lemma any_events_nil : any_events [].
Proof. exact I. Qed.

Create HintDb frame.

#[local] Hint Resolve no_posts_nil no_posts_app any_events_nil any_events_app
  grows_refl grows_trans eq_trans_state : frame.
#[local] Hint Extern 1 (@eq state _ _) => reflexivity : frame.
#[local] Hint Extern 1 (any_events _) => exact I : frame.
#[local] Hint Extern 1 (no_posts [_]) => reflexivity : frame.

(** Closes the side conditions of the [respects] lemmas. *)
Ltac frame_side := solve [ eauto 3 with frame ].

(** Builds a [respects] fact along the syntax of a computation. *)
Ltac frame :=
  repeat first
    [ apply respects_bind; [frame_side .. | | intros ? ]
    | apply respects_try_except; [frame_side .. | | intros ? ]
    | apply respects_for_range; [frame_side .. | intros ? ]
    | apply respects_ret; frame_side
    | apply respects_raise; frame_side
    | apply respects_lift; frame_side
    | apply respects_emit; frame_side
    | match goal with
      | |- respects _ _ (match ?x with _ => _ end) => destruct x
      | |- respects _ _ (if ?x then _ else _) => destruct x
      end ].

(** Fetching a candle leaves the state alone and posts nothing. *)
Lemma get_latest_15m_kline_silent w symbol :
  respects eq no_posts (get_latest_15m_kline w symbol).
Proof.
  unfold get_latest_15m_kline, kline_attempt, raise_for_status, sleep. frame.
Qed.

(** Sending a message leaves the state alone. *)
Lemma send_telegram_stateless w text :
  respects eq any_events (send_telegram w text).
Proof.
  unfold send_telegram, telegram_attempt, raise_for_status, sleep. frame.
Qed.

Lemma make_alert_text_silent cfg symbol k pct :
  respects eq no_posts (make_alert_text cfg symbol k pct).
Proof. unfold make_alert_text. frame. Qed.

Lemma respects_weaken {A} (R R' : state -> state -> Prop) (P P' : list event -> Prop)
    (m : M A) :
  (forall a b, R a b -> R' a b) -> (forall evs, P evs -> P' evs) ->
  respects R P m -> respects R' P' m.
Proof. intros HR HP Hm st. destruct (Hm st). auto. Qed.

Lemma eq_grows a b : a = b -> grows a b.
Proof. intros ->. apply grows_refl. Qed.

Lemma respects_grows {A} P (m : M A) :
  respects eq P m -> respects grows any_events m.
Proof. apply respects_weaken; [apply eq_grows | easy]. Qed.

(** ** The table operations *)

Lemma bind_int_silent z : respects eq no_posts (bind_int z).
Proof. unfold bind_int. frame. Qed.

Lemma already_alerted_silent symbol ot : respects eq no_posts (already_alerted symbol ot).
Proof.
  unfold already_alerted. apply respects_bind; eauto with frame.
  - apply bind_int_silent.
  - intros _ st. destruct (db st); simpl; auto with frame.
Qed.

Lemma db_init_grows : respects grows any_events db_init.
Proof.
  intros st. split; [| exact I]. intros rows H. simpl. rewrite H. simpl. eauto.
Qed.

Lemma mark_alerted_grows symbol ot : respects grows any_events (mark_alerted symbol ot).
Proof.
  unfold mark_alerted. apply respects_bind; eauto with frame.
  - apply (respects_grows _ _ (bind_int_silent ot)).
  - intros _ st. split; [| exact I]. intros rows H. rewrite H.
    destruct (has_row (symbol, ot) rows); simpl; [eauto |].
    eexists. split; [reflexivity |]. intros key Hk.
    rewrite has_row_app, Hk. reflexivity.
Qed.

Lemma append_alert_grows a : respects grows any_events (append_alert a).
Proof. intros st. split; [| exact I]. intros rows H. simpl. eauto. Qed.

Lemma new_alerts_grows : respects grows any_events new_alerts.
Proof. intros st. split; [| exact I]. intros rows H. simpl. eauto. Qed.

Lemma get_alerts_grows : respects grows any_events get_alerts.
Proof. intros st. split; [| exact I]. apply grows_refl. Qed.

(** ** The worker and the cycle only add rows *)

Lemma evaluate_grows cfg w sym k : respects grows any_events (evaluate cfg w sym k).
Proof.
  unfold evaluate.
  apply respects_bind; eauto with frame; [frame |]. intros pct.
  destruct (PyFloat.geb _ _); [| frame].
  apply respects_bind; eauto with frame.
  { apply (respects_grows _ _ (already_alerted_silent _ _)). }
  intros seen. destruct (negb seen); [| frame].
  apply respects_bind; eauto with frame.
  { apply (respects_grows _ _ (make_alert_text_silent _ _ _ _)). }
  intros text.
  apply respects_bind; eauto with frame.
  { apply (respects_grows _ _ (send_telegram_stateless _ _)). }
  intros ok. destruct ok; [| frame].
  apply respects_bind; eauto with frame.
  - apply mark_alerted_grows.
  - intros _. apply append_alert_grows.
Qed.

Lemma worker_grows cfg w sym : respects grows any_events (worker cfg w sym).
Proof.
  unfold worker. apply respects_bind; eauto with frame.
  - apply (respects_grows _ _ (get_latest_15m_kline_silent _ _)).
  - intros [k |]; [apply evaluate_grows | frame].
Qed.

Lemma gather_grows cfg w symbols : respects grows any_events (gather cfg w symbols).
Proof.
  induction symbols as [| sym rest IH]; simpl; [frame |].
  apply respects_bind; eauto with frame. apply worker_grows.
Qed.

Lemma check_once_grows cfg w : respects grows any_events (check_once cfg w).
Proof.
  unfold check_once, get_symbols, raise_for_status.
  apply respects_bind; eauto with frame; [apply db_init_grows |]. intros _.
  apply respects_bind; eauto with frame; [frame |]. intros symbols.
  apply respects_bind; eauto with frame; [apply new_alerts_grows |]. intros _.
  apply respects_bind; eauto with frame; [apply gather_grows |]. intros _.
  apply get_alerts_grows.
Qed.

Lemma run_cycles_grows cycles st : grows st (run_cycles cycles st).
Proof.
  revert st. induction cycles as [| [cfg w] rest IH]; intros st; simpl.
  - apply grows_refl.
  - eapply grows_trans; [| apply IH]. apply check_once_grows.
Qed.

(** ** The worker *)

(** Once the candle is fetched, the worker goes on with [evaluate] in the
    state it started in. *)
Lemma worker_fetched cfg w sym st k :
  value (get_latest_15m_kline w sym st) = inr (Some k) ->
  value (worker cfg w sym st) = value (evaluate cfg w sym k st)
  /\ final (worker cfg w sym st) = final (evaluate cfg w sym k st)
  /\ posts (events (worker cfg w sym st)) = posts (events (evaluate cfg w sym k st)).
Proof.
  intros H. unfold worker. rewrite (bind_ok _ _ _ _ H). simpl.
  destruct (get_latest_15m_kline_silent w sym st) as [<- Hp].
  rewrite posts_app, Hp. auto.
Qed.

(** With the key on record, [evaluate] posts nothing and leaves the state. *)
Lemma evaluate_recorded cfg w sym k st rows :
  db st = Some rows ->
  has_row (sym, open_time k) rows = true ->
  posts (events (evaluate cfg w sym k st)) = [] /\ final (evaluate cfg w sym k st) = st.
Proof.
  intros Hdb Hrow. unfold evaluate, bind, lift.
  destruct (percent_move k) as [e | pct]; simpl; [auto |].
  destruct (PyFloat.geb _ _); simpl; [| auto].
  unfold already_alerted, bind, bind_int.
  destruct (in_int64 (open_time k)); simpl; [| auto].
  rewrite Hdb. simpl. rewrite Hrow. simpl. auto.
Qed.

(** C1: once the key (symbol, open time) is on record, no notification is
    attempted for it again.  However many scan cycles run afterwards on the
    same database, under whatever configurations and in whatever worlds, a
    worker that then fetches for this symbol a candle with this open time
    posts nothing to Telegram, whatever the move of the candle, and the key
    stays on record. *)
Theorem recorded_key_is_not_notified_again
    (cycles : list (config * world)) (cfg : config) (w : world)
    (sym : string) (ot : Z) (k : kline) (st : state) (rows : list (string * Z)) :
  db st = Some rows ->
  has_row (sym, ot) rows = true ->
  value (get_latest_15m_kline w sym (run_cycles cycles st)) = inr (Some k) ->
  open_time k = ot ->
  posts (events (worker cfg w sym (run_cycles cycles st))) = []
  /\ exists rows', db (final (worker cfg w sym (run_cycles cycles st))) = Some rows'
                   /\ has_row (sym, ot) rows' = true.
Proof.
  intros Hdb Hrow Hk <-.
  destruct (run_cycles_grows cycles st rows Hdb) as [rows' [Hdb' Hkeep]].
  destruct (worker_fetched cfg w sym _ k Hk) as [_ [Hf Hp]].
  destruct (evaluate_recorded cfg w sym k _ rows' Hdb' (Hkeep _ Hrow)) as [Hp' Hf'].
  rewrite Hp, Hf, Hp', Hf'. split; [reflexivity |]. eauto.
Qed.

(** ** Comparisons of floats *)

Lemma SFcompare_Lt_Gt (a b : float) :
  SFcompare a b = Some Lt -> SFcompare b a = Some Gt.
Proof.
  destruct a as [sa | sa | | sa ma ea], b as [sb | sb | | sb mb eb]; simpl;
    try destruct sa; try destruct sb; simpl; try congruence.
  - rewrite (Z.compare_antisym ea eb).
    destruct (ea ?= eb); simpl; try congruence.
    fold (Pos.compare ma mb). fold (Pos.compare mb ma).
    rewrite (Pos.compare_antisym ma mb).
    destruct (ma ?= mb)%positive; simpl; congruence.
  - rewrite (Z.compare_antisym ea eb).
    destruct (ea ?= eb); simpl; try congruence.
    fold (Pos.compare ma mb). fold (Pos.compare mb ma).
    rewrite (Pos.compare_antisym ma mb).
    destruct (ma ?= mb)%positive; simpl; congruence.
Qed.

(** [a < b] rules out [a >= b]. *)
Lemma ltb_not_geb (a b : float) : PyFloat.ltb a b = true -> PyFloat.geb a b = false.
Proof.
  unfold PyFloat.ltb, PyFloat.geb, PyFloat.leb, SFltb, SFleb.
  destruct (SFcompare a b) as [[| |] |] eqn:H; try discriminate.
  intros _. now rewrite (SFcompare_Lt_Gt _ _ H).
Qed.

(** C5: a candle whose move stays below the threshold in absolute value is
    neither notified nor recorded.  The worker that fetched it returns
    normally, posts nothing to Telegram, and leaves the state, hence the
    table, as it found it. *)
Theorem below_threshold_is_skipped
    (cfg : config) (w : world) (sym : string) (k : kline) (pct : float) (st : state) :
  value (get_latest_15m_kline w sym st) = inr (Some k) ->
  percent_move k = inr pct ->
  PyFloat.ltb (PyFloat.abs pct) (THRESHOLD cfg) = true ->
  value (worker cfg w sym st) = inr tt
  /\ posts (events (worker cfg w sym st)) = []
  /\ final (worker cfg w sym st) = st.
Proof.
  intros Hk Hpct Hlt.
  destruct (worker_fetched cfg w sym st k Hk) as [Hv [Hf Hp]].
  rewrite Hv, Hf, Hp. unfold evaluate, bind, lift.
  rewrite Hpct. simpl. rewrite (ltb_not_geb _ _ Hlt). simpl. auto.
Qed.

(** ** Sending *)

Lemma bind_events_prefix {A B} (m : M A) (f : A -> M B) st :
  exists rest, events (bind m f st) = events (m st) ++ rest.
Proof.
  unfold bind. destruct (value (m st)); simpl; [exists [] | eauto].
  now rewrite app_nil_r.
Qed.

Lemma try_except_events_prefix {A} (body : M A) is_C handler st :
  exists rest, events (try_except body is_C handler st) = events (body st) ++ rest.
Proof.
  unfold try_except.
  destruct (value (body st)) as [e | a]; [destruct (is_C e) |]; simpl;
    eauto; exists []; now rewrite app_nil_r.
Qed.

(** The first thing [send_telegram] does is to post the text. *)
Lemma send_telegram_posts w text st :
  exists rest, posts (events (send_telegram w text st)) = text :: rest.
Proof.
  unfold send_telegram. simpl for_range. unfold telegram_attempt at 1.
  match goal with |- context [events (bind ?m ?f st)] =>
    destruct (bind_events_prefix m f st) as [r1 ->];
    match m with try_except ?body ?c ?h =>
      destruct (try_except_events_prefix body c h st) as [r2 ->];
      match body with bind ?m' ?f' =>
        destruct (bind_events_prefix m' f' st) as [r3 ->]
      end
    end
  end.
  simpl. eauto.
Qed.

Lemma bind_pure {A B} (m : M A) (f : A -> M B) st a :
  m st = mk_outcome (inr a) st [] -> bind m f st = f a st.
Proof. intros H. unfold bind. rewrite H. simpl. now destruct (f a st). Qed.

Lemma make_alert_text_pure cfg sym k pct st text :
  value (make_alert_text cfg sym k pct st) = inr text ->
  make_alert_text cfg sym k pct st = mk_outcome (inr text) st [].
Proof.
  unfold make_alert_text, bind, lift.
  destruct (int_truediv (open_time k) 1000) as [e | secs]; simpl; [discriminate |].
  destruct (gmtime secs) as [e | t]; simpl; [discriminate |].
  now intros [= <-].
Qed.

(** The text of an alert does not depend on the state. *)
Lemma make_alert_text_any_state cfg sym k pct st st' :
  value (make_alert_text cfg sym k pct st) = value (make_alert_text cfg sym k pct st').
Proof.
  unfold make_alert_text, bind, lift.
  destruct (int_truediv (open_time k) 1000) as [e | secs]; simpl; [reflexivity |].
  now destruct (gmtime secs).
Qed.

Lemma already_alerted_run sym ot st rows :
  db st = Some rows -> in_int64 ot = true ->
  already_alerted sym ot st = mk_outcome (inr (has_row (sym, ot) rows)) st [].
Proof.
  intros Hdb Hr. unfold already_alerted, bind, bind_int. rewrite Hr. simpl.
  now rewrite Hdb.
Qed.

Lemma mark_alerted_new sym ot st rows :
  db st = Some rows -> in_int64 ot = true -> has_row (sym, ot) rows = false ->
  mark_alerted sym ot st =
    mk_outcome (inr tt) (mk_state (Some (rows ++ [(sym, ot)])) (alerts st)) [].
Proof.
  intros Hdb Hr Hrow. unfold mark_alerted, bind, bind_int. rewrite Hr. simpl.
  rewrite Hdb. simpl. now rewrite Hrow.
Qed.

(** What [evaluate] does with a candle that qualifies and is not on record:
    it sends the text, and what follows depends on the answer only. *)
Lemma evaluate_qualifying cfg w sym k pct text st rows :
  db st = Some rows ->
  percent_move k = inr pct ->
  PyFloat.geb (PyFloat.abs pct) (THRESHOLD cfg) = true ->
  in_int64 (open_time k) = true ->
  has_row (sym, open_time k) rows = false ->
  value (make_alert_text cfg sym k pct st) = inr text ->
  evaluate cfg w sym k st =
    match value (send_telegram w text st) with
    | inr true =>
        mk_outcome (inr tt)
          (mk_state (Some (rows ++ [(sym, open_time k)])) (alerts st ++ [(sym, pct)]))
          (events (send_telegram w text st))
    | inr false => mk_outcome (inr tt) st (events (send_telegram w text st))
    | inl e => mk_outcome (inl e) st (events (send_telegram w text st))
    end.
Proof.
  intros Hdb Hpct Hge Hr Hrow Htext.
  destruct (send_telegram_stateless w text st) as [Hst _].
  unfold evaluate.
  rewrite (bind_pure _ _ _ pct) by now rewrite Hpct.
  rewrite Hge.
  rewrite (bind_pure _ _ _ false)
    by now rewrite (already_alerted_run _ _ _ rows), Hrow.
  cbn [negb].
  rewrite (bind_pure _ _ _ text) by now apply make_alert_text_pure.
  unfold bind at 1.
  destruct (send_telegram w text st) as [v f evs]. simpl in Hst. subst f.
  destruct v as [e | [|]]; cbn [value final events].
  - reflexivity.
  - unfold bind. rewrite (mark_alerted_new _ _ _ rows) by assumption.
    cbn. now rewrite !app_nil_r.
  - cbn. now rewrite app_nil_r.
Qed.

(** C2: for a candle that qualifies and whose key is not on record, the key
    is recorded if and only if [send_telegram] reports success.  When the
    send reports failure, the worker leaves the state untouched, and a
    worker of a later cycle that fetches the same candle posts the text
    again. *)
Theorem key_recorded_iff_send_succeeds
    (cfg : config) (w : world) (sym : string) (k : kline) (pct : float)
    (text : string) (st : state) (rows : list (string * Z)) :
  db st = Some rows ->
  value (get_latest_15m_kline w sym st) = inr (Some k) ->
  percent_move k = inr pct ->
  PyFloat.geb (PyFloat.abs pct) (THRESHOLD cfg) = true ->
  in_int64 (open_time k) = true ->
  has_row (sym, open_time k) rows = false ->
  value (make_alert_text cfg sym k pct st) = inr text ->
  (exists rows', db (final (worker cfg w sym st)) = Some rows'
     /\ (has_row (sym, open_time k) rows' = true
         <-> value (send_telegram w text st) = inr true))
  /\ (value (send_telegram w text st) = inr false ->
      final (worker cfg w sym st) = st
      /\ forall w' st' rows',
           db st' = Some rows' ->
           has_row (sym, open_time k) rows' = false ->
           value (get_latest_15m_kline w' sym st') = inr (Some k) ->
           In text (posts (events (worker cfg w' sym st')))).
Proof.
  intros Hdb Hk Hpct Hge Hr Hrow Htext.
  destruct (worker_fetched cfg w sym st k Hk) as [_ [Hf _]].
  rewrite Hf, (evaluate_qualifying cfg w sym k pct text st rows) by assumption.
  split.
  - destruct (value (send_telegram w text st)) as [e | [|]]; simpl.
    + exists rows. split; [assumption |]. rewrite Hrow. split; discriminate.
    + eexists. split; [reflexivity |].
      rewrite has_row_app, has_row_self, orb_true_r. split; reflexivity.
    + exists rows. split; [assumption |]. rewrite Hrow. split; discriminate.
  - intros Hs. rewrite Hs. simpl. split; [reflexivity |].
    intros w' st' rows' Hdb' Hrow' Hk'.
    destruct (worker_fetched cfg w' sym st' k Hk') as [_ [_ Hp]].
    rewrite Hp, (evaluate_qualifying cfg w' sym k pct text st' rows')
      by (try assumption; now rewrite (make_alert_text_any_state _ _ _ _ st' st)).
    destruct (send_telegram_posts w' text st') as [rest Hrest].
    destruct (value (send_telegram w' text st')) as [e | [|]]; simpl;
      rewrite Hrest; now left.
Qed.

(** ** The retry loop of [get_latest_15m_kline] *)

Arguments status_in : simpl never.

Lemma kline_attempt_retry w sym i st :
  must_retry (klines w sym i) = true ->
  kline_attempt w sym i st =
    mk_outcome (inr Continue) st [GetKlines sym i; Sleep (backoff i)].
Proof.
  unfold must_retry, rate_limited, transport_error, error_status.
  unfold kline_attempt, try_except, bind, lift, raise_for_status, sleep, emit, ret, raise.
  destruct (klines w sym i) as [e | r]; simpl; intros H.
  - rewrite orb_false_r in H. now rewrite H.
  - rewrite orb_false_r in H.
    destruct (status_in (status r) [418; 429; 451]); simpl in *; [reflexivity |].
    now rewrite H.
Qed.


Lemma kline_attempt_one_request w sym i st :
  (length (kline_requests (events (kline_attempt w sym i st))) <= 1)%nat.
Proof.
  unfold kline_attempt, try_except, bind, lift, raise_for_status, sleep, emit, ret, raise.
  destruct (klines w sym i) as [e | [s [e | arr]]]; simpl;
    repeat match goal with
           | |- context [if ?b then _ else _] => destruct b; simpl
           | |- context [match ?x with _ => _ end] => destruct x; simpl
           end; lia.
Qed.

Lemma for_range_all_continue {A} (range : list nat) (body : nat -> M (ctl A))
    (after : A) (st : state) (evs : nat -> list event) :
  (forall i, i ∈ range -> body i st = mk_outcome (inr Continue) st (evs i)) ->
  for_range range body after st = mk_outcome (inr after) st (flat_map evs range).
Proof.
  induction range as [| i rest IH]; intros H; simpl; [reflexivity |].
  unfold bind. rewrite (H i) by apply list_elem_of_here. simpl.
  rewrite IH; [reflexivity |]. intros j Hj. apply H. now apply list_elem_of_further.
Qed.

Lemma for_range_return_at {A} (pre : list nat) (i : nat) (rest : list nat)
    (body : nat -> M (ctl A)) (after v : A) (st : state)
    (evs : nat -> list event) (evi : list event) :
  (forall j, j ∈ pre -> body j st = mk_outcome (inr Continue) st (evs j)) ->
  body i st = mk_outcome (inr (Return v)) st evi ->
  for_range (pre ++ i :: rest) body after st =
    mk_outcome (inr v) st (flat_map evs pre ++ evi).
Proof.
  induction pre as [| j pre IH]; intros H Hi; simpl.
  - unfold bind. rewrite Hi. simpl. now rewrite app_nil_r.
  - unfold bind. rewrite (H j) by apply list_elem_of_here. simpl.
    rewrite IH; [simpl; now rewrite app_assoc | | assumption].
    intros j' Hj'. apply H. now apply list_elem_of_further.
Qed.

Lemma for_range_requests_bound {A} (range : list nat) (body : nat -> M (ctl A))
    (after : A) (st : state) :
  (forall i st', (length (kline_requests (events (body i st'))) <= 1)%nat) ->
  (length (kline_requests (events (for_range range body after st))) <= length range)%nat.
Proof.
  intros Hb. revert st. induction range as [| i rest IH]; intros st; simpl; [lia |].
  unfold bind. specialize (Hb i st).
  destruct (value (body i st)) as [e | [| v]]; simpl;
    unfold kline_requests in *; rewrite ?omap_app, ?length_app; simpl.
  - lia.
  - specialize (IH (final (body i st))). lia.
  - lia.
Qed.


(** ** Concrete scenarios *)


(** C8: ABCUSDT with open 100.0, close 94.0, open time 1000 and threshold
    6.  The move is exactly -6.0 and its absolute value reaches the
    threshold.  The cycle posts one message, with the direction DOWN and the
    move 6.00%, and records the key.  A second cycle that meets the same
    candle fetches it and posts nothing. *)
Theorem scenario_abcusdt :
  let w := calm_world [("ABCUSDT", candle_abc)] in
  let first := check_once cfg_default w fresh in
  let second := check_once cfg_default w (final first) in
  THRESHOLD cfg_default = PyFloat.of_Z 6
  /\ percent_move candle_abc = inr (PyFloat.of_Z (-6))
  /\ PyFloat.geb (PyFloat.abs (PyFloat.of_Z (-6))) (THRESHOLD cfg_default) = true
  /\ fmt_pct (PyFloat.abs (PyFloat.of_Z (-6))) = "6.00%"
  /\ posts (events first) = [abc_text]
  /\ value first = inr [("ABCUSDT", PyFloat.of_Z (-6))]
  /\ db (final first) = Some [("ABCUSDT", 1000)]
  /\ kline_requests (events second) = [("ABCUSDT", 0%nat)]
  /\ posts (events second) = []
  /\ value second = inr []
  /\ db (final second) = Some [("ABCUSDT", 1000)].
Proof. vm_compute. repeat split. Qed.

(** ** The symbol universe *)

Lemma keep_symbols_spec cfg entries :
  keep_symbols cfg entries = List.filter nonempty (spec_list_symbols cfg entries).
Proof.
  induction entries as [| s rest IH]; [reflexivity |].
  unfold spec_list_symbols, passes_filters, nonempty in *. simpl.
  destruct (bool_decide (si_status s = Some "TRADING")); simpl.
  2: { rewrite IH. now destruct (si_symbol s). }
  destruct (bool_decide (si_contractType s = Some "PERPETUAL")); simpl.
  2: { rewrite IH. now destruct (si_symbol s). }
  destruct (bool_decide (si_quoteAsset s = Some (QUOTE cfg))); simpl.
  2: { rewrite IH. now destruct (si_symbol s). }
  destruct (si_symbol s) as [sym |]; [| exact IH].
  destruct (bool_decide (sym ∈ EXCLUDED cfg)); simpl.
  - rewrite orb_true_r. exact IH.
  - rewrite orb_false_r. simpl.
    destruct (bool_decide (sym = "")); simpl; now rewrite IH.
Qed.

(** C7, counterexample: an entry that is trading, perpetual, quoted in USDT
    and not excluded, whose symbol is the empty string, passes the four
    filters and is not returned. *)
Lemma empty_symbol_is_dropped :
  value (get_symbols cfg_default nameless_world fresh)
  <> inr (spec_list_symbols cfg_default [perpetual "USDT" ""]).
Proof. vm_compute. discriminate. Qed.

(** C7, amended: when the exchange-info request is answered with a status
    below 400 and a body that decodes, [get_symbols] returns, in the order of
    the answer, exactly the symbols that are non-empty strings and whose
    entry passes the four filters: trading, perpetual, quoted in [QUOTE], not
    in [EXCLUDED]. *)
Theorem get_symbols_filters
    (cfg : config) (w : world) (st : state) (s : Z) (data : list symbol_info) :
  exchange_info w = inr (mk_response s (inr data)) ->
  s < 400 ->
  value (get_symbols cfg w st)
    = inr (List.filter nonempty (spec_list_symbols cfg data))
  /\ final (get_symbols cfg w st) = st.
Proof.
  intros Hw Hs.
  unfold get_symbols, bind, lift, raise_for_status, emit, ret, raise.
  rewrite Hw. simpl.
  destruct (Z.leb_spec 400 s) as [Hge |]; [lia |]. simpl.
  now rewrite keep_symbols_spec.
Qed.

(** ** The scheduler loop *)





(** ** Configuration *)

(** C10: the five settings read before [load_dotenv()] never come from the
    [.env] file.  Whenever the module initialises, each of INTERVAL,
    THRESHOLD, POLL_SECONDS, QUOTE and EXCLUDED that the process environment
    does not define has its built-in default ("15m", 6, 60, "USDT", the
    empty set), whatever the [.env] file says; while TELEGRAM_BOT_TOKEN,
    TELEGRAM_CHAT_ID and DB_PATH, when the process environment does not
    define them, take the value the [.env] file gives them. *)
Theorem settings_read_before_load_dotenv
    (py_float : string -> option float) (py_int : string -> option Z)
    (env dotenv : gmap string string) (cfg : config) :
  py_float "6" = Some (PyFloat.of_Z 6) ->
  py_int "60" = Some 60 ->
  module_init py_float py_int env dotenv = inr cfg ->
  (env !! "INTERVAL" = None -> INTERVAL cfg = "15m")
  /\ (env !! "THRESHOLD" = None -> THRESHOLD cfg = PyFloat.of_Z 6)
  /\ (env !! "POLL_SECONDS" = None -> POLL_SECONDS cfg = 60)
  /\ (env !! "QUOTE" = None -> QUOTE cfg = "USDT")
  /\ (env !! "EXCLUDED" = None -> EXCLUDED cfg = ∅)
  /\ (forall v, env !! "TELEGRAM_BOT_TOKEN" = None ->
        dotenv !! "TELEGRAM_BOT_TOKEN" = Some v -> TELEGRAM_BOT_TOKEN cfg = strip v)
  /\ (forall v, env !! "TELEGRAM_CHAT_ID" = None ->
        dotenv !! "TELEGRAM_CHAT_ID" = Some v -> TELEGRAM_CHAT_ID cfg = strip v)
  /\ (forall v, env !! "DB_PATH" = None ->
        dotenv !! "DB_PATH" = Some v -> DB_PATH cfg = v).
Proof.
  intros Hf Hi. unfold module_init, of_parse.
  destruct (py_float (getenv env "THRESHOLD" "6")) as [threshold |] eqn:Hth; [| discriminate].
  destruct (py_int (getenv env "POLL_SECONDS" "60")) as [poll |] eqn:Hpo; [| discriminate].
  destruct (_ || _); [discriminate |]. intros [= <-].
  cbn [INTERVAL THRESHOLD POLL_SECONDS QUOTE EXCLUDED TELEGRAM_BOT_TOKEN
       TELEGRAM_CHAT_ID DB_PATH].
  unfold getenv, read_EXCLUDED, load_dotenv in *.
  repeat split.
  - now intros ->.
  - intros H. rewrite H in Hth. simpl in Hth. congruence.
  - intros H. rewrite H in Hpo. simpl in Hpo. congruence.
  - now intros ->.
  - intros H. unfold getenv. now rewrite H.
  - intros v He Hd. now rewrite (lookup_union_r _ _ _ He), Hd.
  - intros v He Hd. now rewrite (lookup_union_r _ _ _ He), Hd.
  - intros v He Hd. now rewrite (lookup_union_r _ _ _ He), Hd.
Qed.

(** ** The theorems at concrete inputs *)

(** After the cycle that notified ABCUSDT and a later cycle on another
    symbol, the worker that meets the same candle again posts nothing. *)
Lemma recorded_key_is_not_notified_again_witness :
  posts (events (worker cfg_default (calm_world [("ABCUSDT", candle_abc)]) "ABCUSDT"
                   (run_cycles [(cfg_default, calm_world [("XYZUSDT", candle_xyz)])]
                      after_first_alert))) = []
  /\ exists rows',
       db (final (worker cfg_default (calm_world [("ABCUSDT", candle_abc)]) "ABCUSDT"
                    (run_cycles [(cfg_default, calm_world [("XYZUSDT", candle_xyz)])]
                       after_first_alert))) = Some rows'
       /\ has_row ("ABCUSDT", 1000) rows' = true.
Proof.
  apply (recorded_key_is_not_notified_again
           [(cfg_default, calm_world [("XYZUSDT", candle_xyz)])]
           cfg_default (calm_world [("ABCUSDT", candle_abc)]) "ABCUSDT" 1000
           candle_abc after_first_alert [("ABCUSDT", 1000)]);
    vm_compute; reflexivity.
Defined.

(** ABCUSDT qualifies while Telegram answers 503 to every post: nothing is
    recorded, and the text is posted again by a later worker. *)
Lemma key_recorded_iff_send_succeeds_witness :
  (exists rows',
     db (final (worker cfg_default (telegram_down [("ABCUSDT", candle_abc)])
                  "ABCUSDT" empty_table)) = Some rows'
     /\ (has_row ("ABCUSDT", open_time candle_abc) rows' = true
         <-> value (send_telegram (telegram_down [("ABCUSDT", candle_abc)])
                      abc_text empty_table) = inr true))
  /\ (value (send_telegram (telegram_down [("ABCUSDT", candle_abc)])
               abc_text empty_table) = inr false ->
      final (worker cfg_default (telegram_down [("ABCUSDT", candle_abc)])
               "ABCUSDT" empty_table) = empty_table
      /\ forall w' st' rows',
           db st' = Some rows' ->
           has_row ("ABCUSDT", open_time candle_abc) rows' = false ->
           value (get_latest_15m_kline w' "ABCUSDT" st') = inr (Some candle_abc) ->
           In abc_text (posts (events (worker cfg_default w' "ABCUSDT" st')))).
Proof.
  apply (key_recorded_iff_send_succeeds cfg_default
           (telegram_down [("ABCUSDT", candle_abc)]) "ABCUSDT" candle_abc
           (PyFloat.of_Z (-6)) abc_text empty_table []);
    vm_compute; reflexivity.
Defined.

(** Recording (ABCUSDT, 1000) twice in an empty table. *)
Lemma mark_alerted_idempotent_witness :
  value (mark_alerted "ABCUSDT" 1000 empty_table) = inr tt
  /\ value (mark_alerted "ABCUSDT" 1000
              (final (mark_alerted "ABCUSDT" 1000 empty_table))) = inr tt
  /\ exists rows',
       db (final (mark_alerted "ABCUSDT" 1000
                    (final (mark_alerted "ABCUSDT" 1000 empty_table)))) = Some rows'
       /\ NoDup rows' /\ ("ABCUSDT", 1000) ∈ rows'.
Proof.
  destruct (mark_alerted_idempotent "ABCUSDT" 1000 empty_table) as [_ [_ [_ H]]].
  apply (H []); [reflexivity | constructor | reflexivity].
Defined.

(** XYZUSDT, from 50.0 to 51.0: a move of 2.0, below the threshold of 6. *)
Lemma below_threshold_is_skipped_witness :
  value (worker cfg_default (calm_world [("XYZUSDT", candle_xyz)]) "XYZUSDT" empty_table)
    = inr tt
  /\ posts (events (worker cfg_default (calm_world [("XYZUSDT", candle_xyz)])
                      "XYZUSDT" empty_table)) = []
  /\ final (worker cfg_default (calm_world [("XYZUSDT", candle_xyz)])
              "XYZUSDT" empty_table) = empty_table.
Proof.
  apply (below_threshold_is_skipped cfg_default (calm_world [("XYZUSDT", candle_xyz)])
           "XYZUSDT" candle_xyz (PyFloat.of_Z 2) empty_table);
    vm_compute; reflexivity.
Defined.


(** Two perpetual USDT symbols, both trading, none excluded. *)
Lemma get_symbols_filters_witness :
  value (get_symbols cfg_default
           (calm_world [("ABCUSDT", candle_abc); ("XYZUSDT", candle_xyz)]) fresh)
    = inr ["ABCUSDT"; "XYZUSDT"]
  /\ final (get_symbols cfg_default
              (calm_world [("ABCUSDT", candle_abc); ("XYZUSDT", candle_xyz)]) fresh)
     = fresh.
Proof.
  apply (get_symbols_filters cfg_default
           (calm_world [("ABCUSDT", candle_abc); ("XYZUSDT", candle_xyz)]) fresh 200
           [perpetual "USDT" "ABCUSDT"; perpetual "USDT" "XYZUSDT"]);
    [reflexivity | lia].
Defined.


(** An empty process environment and a [.env] file that sets all eight
    variables. *)
Lemma settings_read_before_load_dotenv_witness :
  module_init read_float read_int ∅ full_dotenv = inr cfg_from_full_dotenv
  /\ INTERVAL cfg_from_full_dotenv = "15m"
  /\ THRESHOLD cfg_from_full_dotenv = PyFloat.of_Z 6
  /\ POLL_SECONDS cfg_from_full_dotenv = 60
  /\ QUOTE cfg_from_full_dotenv = "USDT"
  /\ EXCLUDED cfg_from_full_dotenv = ∅
  /\ TELEGRAM_BOT_TOKEN cfg_from_full_dotenv = strip " 123:abc "
  /\ TELEGRAM_CHAT_ID cfg_from_full_dotenv = strip "42"
  /\ DB_PATH cfg_from_full_dotenv = "state.db".
Proof.
  assert (Hinit : module_init read_float read_int ∅ full_dotenv = inr cfg_from_full_dotenv)
    by (vm_compute; reflexivity).
  destruct (settings_read_before_load_dotenv read_float read_int ∅ full_dotenv
              cfg_from_full_dotenv eq_refl eq_refl Hinit)
    as (H1 & H2 & H3 & H4 & H5 & H6 & H7 & H8).
  split; [exact Hinit |].
  split; [apply H1; reflexivity |].
  split; [apply H2; reflexivity |].
  split; [apply H3; reflexivity |].
  split; [apply H4; reflexivity |].
  split; [apply H5; reflexivity |].
  split; [apply H6; reflexivity |].
  split; [apply H7; reflexivity |].
  apply H8; reflexivity.
Defined.

(** * Further properties *)

(** ** What every part of the program respects

    A relation on states that the four writes to the state respect, and a
    property of event lists that every single event of the program has, are
    respected by the program as a whole. *)

Lemma respects_bind_value {A B} R P (m : M A) (f : A -> M B) :
  (forall st, R st st) -> (forall a b c, R a b -> R b c -> R a c) ->
  P [] -> (forall a b, P a -> P b -> P (a ++ b)) ->
  respects R P m ->
  (forall a, (exists st, value (m st) = inr a) -> respects R P (f a)) ->
  respects R P (bind m f).
Proof.
  intros R_refl R_trans P_nil P_app Hm Hf st. unfold bind.
  destruct (Hm st) as [HR HP].
  destruct (value (m st)) as [e | a] eqn:Hv; simpl; [auto |].
  destruct (Hf a (ex_intro _ st Hv) (final (m st))) as [HR' HP']. eauto.
Qed.

Section Program.

Variable R : state -> state -> Prop.
Variable P : list event -> Prop.
Hypothesis R_refl : forall st, R st st.
Hypothesis R_trans : forall a b c, R a b -> R b c -> R a c.
Hypothesis P_nil : P [].
Hypothesis P_app : forall a b, P a -> P b -> P (a ++ b).

Hypothesis R_db_init : forall st, R st (final (db_init st)).
Hypothesis R_insert : forall symbol ot st rows,
  db st = Some rows -> in_int64 ot = true -> has_row (symbol, ot) rows = false ->
  R st (mk_state (Some (rows ++ [(symbol, ot)])) (alerts st)).
Hypothesis R_append : forall a st, R st (final (append_alert a st)).
Hypothesis R_new : forall st, R st (final (new_alerts st)).

Hypothesis P_info : P [GetExchangeInfo].
Hypothesis P_post : forall text attempt, P [PostTelegram text attempt].
Hypothesis P_backoff : forall attempt, P [Sleep (backoff attempt)].
Hypothesis P_poll : forall x, P [Sleep (max_0 x)].
Hypothesis P_print : forall p, P [Print p].

Lemma program_bind_int z : respects R P (bind_int z).
Proof. unfold bind_int. frame. Qed.

Lemma program_already_alerted symbol ot : respects R P (already_alerted symbol ot).
Proof.
  unfold already_alerted. apply respects_bind; auto.
  - apply program_bind_int.
  - intros _ st. destruct (db st); simpl; auto.
Qed.

Lemma program_mark_alerted symbol ot : respects R P (mark_alerted symbol ot).
Proof.
  unfold mark_alerted, bind_int, bind. intros st.
  destruct (in_int64 ot) eqn:Hr; simpl; [| auto].
  destruct (db st) as [rows |] eqn:Hdb; simpl; [| auto].
  destruct (has_row (symbol, ot) rows) eqn:Hrow; simpl; auto.
Qed.

Lemma program_get_latest_15m_kline w symbol :
  (forall attempt, P [GetKlines symbol attempt]) ->
  respects R P (get_latest_15m_kline w symbol).
Proof.
  intros Hk. unfold get_latest_15m_kline, kline_attempt, raise_for_status, sleep.
  frame.
Qed.

Lemma program_send_telegram w text : respects R P (send_telegram w text).
Proof. unfold send_telegram, telegram_attempt, raise_for_status, sleep. frame. Qed.

Lemma program_make_alert_text cfg symbol k pct :
  respects R P (make_alert_text cfg symbol k pct).
Proof. unfold make_alert_text. frame. Qed.

Lemma program_evaluate cfg w sym k : respects R P (evaluate cfg w sym k).
Proof.
  unfold evaluate.
  apply respects_bind; auto; [frame |]. intros pct.
  destruct (PyFloat.geb _ _); [| frame].
  apply respects_bind; auto; [apply program_already_alerted |].
  intros seen. destruct (negb seen); [| frame].
  apply respects_bind; auto; [apply program_make_alert_text |]. intros text.
  apply respects_bind; auto; [apply program_send_telegram |].
  intros ok. destruct ok; [| frame].
  apply respects_bind; auto; [apply program_mark_alerted |].
  intros _ st. split; [apply R_append | exact P_nil].
Qed.

Lemma program_worker cfg w sym :
  (forall attempt, P [GetKlines sym attempt]) ->
  respects R P (worker cfg w sym).
Proof.
  intros Hk. unfold worker. apply respects_bind; auto.
  - now apply program_get_latest_15m_kline.
  - intros [k |]; [apply program_evaluate | frame].
Qed.

Lemma program_gather cfg w symbols :
  (forall sym attempt, sym ∈ symbols -> P [GetKlines sym attempt]) ->
  respects R P (gather cfg w symbols).
Proof.
  induction symbols as [| sym rest IH]; intros Hk; simpl; [frame |].
  apply respects_bind; auto.
  - apply program_worker. intros attempt. apply Hk, list_elem_of_here.
  - intros _. apply IH. intros s a Hs. now apply Hk, list_elem_of_further.
Qed.

Lemma get_symbols_value cfg w st l :
  value (get_symbols cfg w st) = inr l -> l = listed cfg w.
Proof.
  unfold get_symbols, listed, bind, lift, raise_for_status, emit, ret, raise.
  destruct (exchange_info w) as [e | r]; simpl; [discriminate |].
  destruct (400 <=? status r); simpl; [discriminate |].
  destruct (json r) as [e | data]; simpl; [discriminate |].
  now intros [= <-].
Qed.

Lemma program_get_symbols cfg w : respects R P (get_symbols cfg w).
Proof. unfold get_symbols, raise_for_status. frame. Qed.

Lemma program_check_once cfg w :
  (forall sym attempt, sym ∈ listed cfg w -> P [GetKlines sym attempt]) ->
  respects R P (check_once cfg w).
Proof.
  intros Hk. unfold check_once.
  apply respects_bind; auto.
  { intros st. split; [apply R_db_init | exact P_nil]. }
  intros _.
  apply respects_bind_value; auto; [apply program_get_symbols |].
  intros symbols [st Hv]. apply get_symbols_value in Hv. subst symbols.
  apply respects_bind; auto.
  { intros st'. split; [apply R_new | exact P_nil]. }
  intros _.
  apply respects_bind; auto; [now apply program_gather |]. intros _.
  intros st'. split; [apply R_refl | exact P_nil].
Qed.

Lemma program_loop_iteration cfg w :
  (forall sym attempt, sym ∈ listed cfg w -> P [GetKlines sym attempt]) ->
  respects R P (loop_iteration cfg w).
Proof.
  intros Hk. unfold loop_iteration, print, sleep.
  apply respects_bind; auto.
  - apply respects_try_except; auto.
    + apply respects_bind; auto; [now apply program_check_once |].
      intros [| a sent]; frame.
    + intros e. frame.
  - intros _. frame.
Qed.

Lemma program_loop_turns cfg ws n :
  (forall i sym attempt, sym ∈ listed cfg (ws i) -> P [GetKlines sym attempt]) ->
  forall i, respects R P (loop_turns cfg ws i n).
Proof.
  intros Hk. induction n as [| n IH]; intros i; simpl; [frame |].
  apply respects_bind; auto. apply program_loop_iteration, Hk.
Qed.

Lemma program_main_loop cfg ws n :
  (forall i sym attempt, sym ∈ listed cfg (ws i) -> P [GetKlines sym attempt]) ->
  respects R P (main_loop cfg ws n).
Proof.
  intros Hk. unfold main_loop, print.
  apply respects_bind; auto; [frame |]. intros _. now apply program_loop_turns.
Qed.

End Program.

(** ** The table stays well formed *)

Lemma keeps_table_ok_refl st : keeps_table_ok st st.
Proof. now intros H. Qed.

Lemma keeps_table_ok_trans a b c :
  keeps_table_ok a b -> keeps_table_ok b c -> keeps_table_ok a c.
Proof. unfold keeps_table_ok. auto. Qed.

Lemma keeps_table_ok_db_init st : keeps_table_ok st (final (db_init st)).
Proof.
  unfold keeps_table_ok, table_ok. simpl.
  destruct (db st) as [rows |]; simpl; [auto |].
  intros _. split; constructor.
Qed.

Lemma keeps_table_ok_insert symbol ot st rows :
  db st = Some rows -> in_int64 ot = true -> has_row (symbol, ot) rows = false ->
  keeps_table_ok st (mk_state (Some (rows ++ [(symbol, ot)])) (alerts st)).
Proof.
  intros Hdb Hr Hrow. unfold keeps_table_ok, table_ok. rewrite Hdb. simpl.
  intros [Hnd Hall]. split.
  - apply NoDup_app. split; [assumption | split].
    + intros x Hx ->%list_elem_of_singleton.
      apply has_row_elem_of in Hx. congruence.
    + apply NoDup_singleton.
  - apply Forall_app. split; [assumption |]. now repeat constructor.
Qed.

Lemma table_ok_check_once cfg w st :
  table_ok st -> table_ok (final (check_once cfg w st)).
Proof.
  assert (H : respects keeps_table_ok any_events (check_once cfg w)).
  { apply program_check_once;
      solve [ apply keeps_table_ok_refl | apply keeps_table_ok_trans
            | apply keeps_table_ok_db_init | apply keeps_table_ok_insert
            | easy ]. }
  apply H.
Qed.

(** X5: the rows of the [alerts] table stay pairwise distinct, with open
    times that fit a 64-bit integer, across any sequence of scan cycles,
    under whatever configurations and in whatever worlds they run. *)
Theorem table_stays_well_formed (cycles : list (config * world)) (st : state) :
  table_ok st -> table_ok (run_cycles cycles st).
Proof.
  revert st. induction cycles as [| [cfg w] rest IH]; intros st H; simpl.
  - exact H.
  - apply IH. now apply table_ok_check_once.
Qed.

(** ** Delays *)

Lemma delays_ok_app a b : delays_ok a -> delays_ok b -> delays_ok (a ++ b).
Proof. unfold delays_ok. intros Ha Hb. apply Forall_app. now split. Qed.

Lemma positive_delay_backoff attempt : positive_delay (backoff attempt).
Proof. unfold backoff, positive_delay. lia. Qed.

Lemma positive_delay_max_0 x : positive_delay (max_0 x).
Proof.
  unfold max_0. destruct (PyFloat.gtb x (S754_zero false)) eqn:H; simpl;
    [exact H | lia].
Qed.

(** X10: the program never sleeps for a negative or NaN time.  Every delay
    handed to [asyncio.sleep], by the retry loops and by the scheduler, is
    an integer from 0 on or a float above 0. *)
Theorem delays_are_never_negative (cfg : config) (ws : nat -> world) (n : nat)
    (st : state) :
  delays_ok (events (main_loop cfg ws n st)).
Proof.
  assert (H : respects any_states delays_ok (main_loop cfg ws n)).
  { apply program_main_loop;
      solve [ apply delays_ok_app
            | intros; repeat constructor; apply positive_delay_backoff
            | intros; repeat constructor; apply positive_delay_max_0
            | intros; now repeat constructor ]. }
  apply H.
Qed.

(** ** Which symbols are asked for *)

Lemma requests_within_app l a b :
  requests_within l a -> requests_within l b -> requests_within l (a ++ b).
Proof. unfold requests_within. intros Ha Hb. apply Forall_app. now split. Qed.

Lemma keep_symbols_kept cfg entries sym :
  sym ∈ keep_symbols cfg entries -> sym <> "" /\ sym ∉ EXCLUDED cfg.
Proof.
  induction entries as [| s rest IH]; simpl; [now intros H%elem_of_nil |].
  destruct (negb (bool_decide (si_status s = Some "TRADING"))); [exact IH |].
  destruct (negb (bool_decide (si_contractType s = Some "PERPETUAL"))); [exact IH |].
  destruct (negb (bool_decide (si_quoteAsset s = Some (QUOTE cfg)))); [exact IH |].
  destruct (si_symbol s) as [sym' |]; [| exact IH].
  destruct (bool_decide (sym' = "")) eqn:He; simpl; [exact IH |].
  destruct (bool_decide (sym' ∈ EXCLUDED cfg)) eqn:Hx; simpl; [exact IH |].
  intros [-> | H]%elem_of_cons; [| now apply IH].
  apply bool_decide_eq_false in He, Hx. now split.
Qed.

(** X9: a scan cycle asks for the klines of listed symbols only.  Every
    kline request of [check_once] is for a symbol that [get_symbols]
    returned, so never for the empty string and never for a symbol of
    [EXCLUDED]. *)
Theorem excluded_symbols_are_never_fetched (cfg : config) (w : world) (st : state)
    (sym : string) (attempt : nat) :
  GetKlines sym attempt ∈ events (check_once cfg w st) ->
  sym ∈ listed cfg w /\ sym <> "" /\ sym ∉ EXCLUDED cfg.
Proof.
  intros Hin.
  assert (Hall : requests_within (listed cfg w) (events (check_once cfg w st))).
  { assert (H : respects any_states (requests_within (listed cfg w))
                  (check_once cfg w)).
    { apply program_check_once;
        solve [ apply requests_within_app | intros; now repeat constructor ]. }
    apply H. }
  unfold requests_within in Hall. rewrite Forall_forall in Hall.
  specialize (Hall _ Hin). simpl in Hall. split; [exact Hall |].
  unfold listed in Hall.
  destruct (exchange_info w) as [e | r]; [now apply elem_of_nil in Hall |].
  destruct (400 <=? status r); [now apply elem_of_nil in Hall |].
  destruct (json r) as [e | data]; [now apply elem_of_nil in Hall |].
  now apply keep_symbols_kept in Hall.
Qed.

(** ** The retry loop of [send_telegram] *)

Lemma status_below_400_not_listed s :
  s < 400 -> status_in s [429; 500; 502; 503; 504] = false.
Proof.
  intros H. unfold status_in. simpl.
  repeat match goal with
         | |- context [?a =? ?b] => destruct (Z.eqb_spec a b); [lia |]
         end.
  reflexivity.
Qed.

Lemma telegram_attempt_retry w text i st :
  telegram_retry (telegram w text i) = true ->
  telegram_attempt w text i st =
    mk_outcome (inr Continue) st [PostTelegram text i; Sleep (backoff i)].
Proof.
  unfold telegram_retry.
  unfold telegram_attempt, try_except, bind, lift, raise_for_status, sleep, emit, ret, raise.
  destruct (telegram w text i) as [e | r]; simpl; intros H.
  - now rewrite H.
  - destruct (status_in (status r) [429; 500; 502; 503; 504]); simpl in *;
      [reflexivity |].
    now rewrite H.
Qed.

Lemma telegram_attempt_success w text i st s body :
  telegram w text i = inr (mk_response s body) ->
  s < 400 ->
  telegram_attempt w text i st = mk_outcome (inr (Return true)) st [PostTelegram text i].
Proof.
  intros Hw Hs.
  unfold telegram_attempt, try_except, bind, lift, raise_for_status, sleep, emit, ret, raise.
  rewrite Hw. simpl. rewrite (status_below_400_not_listed s Hs).
  destruct (Z.leb_spec 400 s) as [Hge |]; [lia |]. reflexivity.
Qed.

Lemma telegram_attempt_raise w text i st e :
  telegram w text i = inl e ->
  is_ClientError e = false ->
  telegram_attempt w text i st = mk_outcome (inl e) st [PostTelegram text i].
Proof.
  intros Hw He.
  unfold telegram_attempt, try_except, bind, lift, emit, ret, raise.
  rewrite Hw. simpl. now rewrite He.
Qed.

Lemma telegram_attempt_posts w text i st :
  posts (events (telegram_attempt w text i st)) = [text].
Proof.
  unfold telegram_attempt, try_except, bind, lift, raise_for_status, sleep, emit, ret, raise.
  destruct (telegram w text i) as [e | [s body]]; simpl;
    repeat match goal with
           | |- context [if ?b then _ else _] => destruct b; simpl
           end; reflexivity.
Qed.

Lemma for_range_raise_at {A} (pre : list nat) (i : nat) (rest : list nat)
    (body : nat -> M (ctl A)) (after : A) (e : exn) (st : state)
    (evs : nat -> list event) (evi : list event) :
  (forall j, j ∈ pre -> body j st = mk_outcome (inr Continue) st (evs j)) ->
  body i st = mk_outcome (inl e) st evi ->
  for_range (pre ++ i :: rest) body after st =
    mk_outcome (inl e) st (flat_map evs pre ++ evi).
Proof.
  induction pre as [| j pre IH]; intros H Hi; simpl.
  - unfold bind. now rewrite Hi.
  - unfold bind. rewrite (H j) by apply list_elem_of_here. simpl.
    rewrite IH; [simpl; now rewrite app_assoc | | assumption].
    intros j' Hj'. apply H. now apply list_elem_of_further.
Qed.

(** When every turn of a loop posts the text once, the loop posts it once
    per turn it makes: at least once, at most once per index. *)
Lemma for_range_posts {A} (range : list nat) (body : nat -> M (ctl A)) (after : A)
    (text : string) :
  (forall i st, posts (events (body i st)) = [text]) ->
  forall st, exists n,
    (n <= length range)%nat /\ (range <> [] -> 1 <= n)%nat
    /\ posts (events (for_range range body after st)) = repeat text n.
Proof.
  intros Hb. induction range as [| i rest IH]; intros st; simpl.
  - exists 0%nat. repeat split; [lia | congruence].
  - unfold bind. specialize (Hb i st).
    destruct (value (body i st)) as [e | [| v]]; simpl.
    + exists 1%nat. repeat split; [lia | lia | now rewrite Hb].
    + destruct (IH (final (body i st))) as [n [Hn [_ Hp]]].
      exists (S n). repeat split; [lia | lia |].
      now rewrite posts_app, Hb, Hp.
    + exists 1%nat. repeat split; [lia | lia |].
      now rewrite posts_app, Hb.
Qed.

Lemma seq_split_at j :
  (j < 3)%nat -> seq 0 3 = seq 0 j ++ j :: seq (S j) (2 - j).
Proof. intros H. destruct j as [| [| [| j]]]; [reflexivity .. | lia]. Qed.

(** X1: [send_telegram] posts the same text one to three times and raises
    nothing as long as each failure is an [aiohttp.ClientError] or a status
    from 400 on, listed or not.  When all three attempts fail in that way it
    returns [False], having slept 1, 3 and 5 seconds, the state untouched;
    the first answer with a status below 400 makes it return [True] at
    once. *)
Theorem send_telegram_retries (w : world) (text : string) (st : state) :
  (exists n, (1 <= n <= 3)%nat
             /\ posts (events (send_telegram w text st)) = repeat text n)
  /\ ((forall i, (i < 3)%nat -> telegram_retry (telegram w text i) = true) ->
      value (send_telegram w text st) = inr false
      /\ final (send_telegram w text st) = st
      /\ sleeps (events (send_telegram w text st)) = [PyInt 1; PyInt 3; PyInt 5])
  /\ (forall j s body,
        (j < 3)%nat ->
        (forall i, (i < j)%nat -> telegram_retry (telegram w text i) = true) ->
        telegram w text j = inr (mk_response s body) ->
        s < 400 ->
        value (send_telegram w text st) = inr true
        /\ posts (events (send_telegram w text st)) = repeat text (S j)
        /\ sleeps (events (send_telegram w text st)) = map backoff (seq 0 j)).
Proof.
  split; [| split].
  - destruct (for_range_posts (seq 0 3) (telegram_attempt w text) false text
                (telegram_attempt_posts w text) st) as [n [Hn [H1 Hp]]].
    exists n. split; [| exact Hp]. simpl in Hn. split; [now apply H1 | exact Hn].
  - intros H. unfold send_telegram.
    rewrite (for_range_all_continue _ _ _ _
               (fun i => [PostTelegram text i; Sleep (backoff i)])).
    + repeat split.
    + intros i Hi. apply telegram_attempt_retry, H.
      apply elem_of_seq in Hi. lia.
  - intros j s body Hj Hpre Hw Hs. unfold send_telegram.
    rewrite (seq_split_at j Hj).
    rewrite (for_range_return_at _ _ _ _ _ true _
               (fun i => [PostTelegram text i; Sleep (backoff i)])
               [PostTelegram text j]).
    + split; [reflexivity |]. simpl events.
      destruct j as [| [| [| j]]]; [repeat split .. | lia].
    + intros i Hi. apply telegram_attempt_retry, Hpre.
      apply elem_of_seq in Hi. lia.
    + eapply telegram_attempt_success; eassumption.
Qed.

(** X2: an exception of [session.post] that is not an [aiohttp.ClientError],
    a timeout for one, is not retried: [send_telegram] raises it at the
    attempt that met it, after the posts and sleeps of the attempts before,
    and leaves the state alone. *)
Theorem send_telegram_raises (w : world) (text : string) (st : state)
    (j : nat) (e : exn) :
  (j < 3)%nat ->
  (forall i, (i < j)%nat -> telegram_retry (telegram w text i) = true) ->
  telegram w text j = inl e ->
  is_ClientError e = false ->
  value (send_telegram w text st) = inl e
  /\ final (send_telegram w text st) = st
  /\ posts (events (send_telegram w text st)) = repeat text (S j)
  /\ sleeps (events (send_telegram w text st)) = map backoff (seq 0 j).
Proof.
  intros Hj Hpre Hw He. unfold send_telegram.
  rewrite (seq_split_at j Hj).
  rewrite (for_range_raise_at _ _ _ _ _ e _
             (fun i => [PostTelegram text i; Sleep (backoff i)])
             [PostTelegram text j]).
  - split; [reflexivity |]. split; [reflexivity |]. simpl events.
    destruct j as [| [| [| j]]]; [repeat split .. | lia].
  - intros i Hi. apply telegram_attempt_retry, Hpre.
    apply elem_of_seq in Hi. lia.
  - now apply telegram_attempt_raise.
Qed.

(** ** Exceptions that leave [get_latest_15m_kline] *)

Lemma kline_attempt_raise w sym i st e :
  unretried (klines w sym i) e ->
  kline_attempt w sym i st = mk_outcome (inl e) st [GetKlines sym i].
Proof.
  intros [He [Hw | [s [Hw [Hs Hr]]]]];
    unfold kline_attempt, try_except, bind, lift, raise_for_status, emit, ret, raise;
    rewrite Hw; simpl.
  - now rewrite He.
  - rewrite Hr. destruct (Z.leb_spec 400 s) as [Hge |]; [lia |]. simpl.
    now rewrite He.
Qed.

(** X3: [get_latest_15m_kline] retries on [aiohttp.ClientError] only.  An
    exception of another class, raised by the request (a timeout) or by the
    decoding of the body, leaves the function at the attempt that met it,
    with no further request; the worker raises it too, and the state is
    untouched. *)
Theorem get_latest_15m_kline_raises (cfg : config) (w : world) (sym : string)
    (st : state) (j : nat) (e : exn) :
  (j < 3)%nat ->
  (forall i, (i < j)%nat -> must_retry (klines w sym i) = true) ->
  unretried (klines w sym j) e ->
  value (get_latest_15m_kline w sym st) = inl e
  /\ final (get_latest_15m_kline w sym st) = st
  /\ kline_requests (events (get_latest_15m_kline w sym st))
     = map (fun i => (sym, i)) (seq 0 (S j))
  /\ value (worker cfg w sym st) = inl e
  /\ final (worker cfg w sym st) = st.
Proof.
  intros Hj Hpre He.
  assert (Hrun : get_latest_15m_kline w sym st =
                 mk_outcome (inl e) st
                   (flat_map (fun i => [GetKlines sym i; Sleep (backoff i)]) (seq 0 j)
                    ++ [GetKlines sym j])).
  { unfold get_latest_15m_kline. rewrite (seq_split_at j Hj).
    apply for_range_raise_at.
    - intros i Hi. apply kline_attempt_retry, Hpre.
      apply elem_of_seq in Hi. lia.
    - now apply kline_attempt_raise. }
  unfold worker. rewrite (bind_raise _ _ _ e) by now rewrite Hrun.
  rewrite Hrun. simpl.
  repeat split.
  destruct j as [| [| [| j]]]; [reflexivity .. | lia].
Qed.

(** ** Writing to the table and reading it back *)

Lemma row_eqb_neq a b : a <> b -> row_eqb a b = false.
Proof.
  intros H. destruct (row_eqb a b) eqn:E; [| reflexivity].
  now apply row_eqb_eq in E.
Qed.

Lemma already_alerted_out_of_range sym ot st :
  in_int64 ot = false ->
  already_alerted sym ot st = mk_outcome (inl OverflowError) st [].
Proof. intros H. unfold already_alerted, bind, bind_int. now rewrite H. Qed.

(** X4: what [mark_alerted] writes, [already_alerted] reads.  On an existing
    table and for an open time that fits a 64-bit integer, a key is reported
    as alerted right after it has been marked, and marking it does not
    change what is reported for any other key. *)
Theorem mark_then_lookup (sym : string) (ot : Z) (st : state)
    (rows : list (string * Z)) :
  db st = Some rows ->
  in_int64 ot = true ->
  value (already_alerted sym ot (final (mark_alerted sym ot st))) = inr true
  /\ forall sym' ot',
       (sym', ot') <> (sym, ot) ->
       value (already_alerted sym' ot' (final (mark_alerted sym ot st)))
       = value (already_alerted sym' ot' st).
Proof.
  intros Hdb Hr.
  destruct (has_row (sym, ot) rows) eqn:Hrow.
  - assert (Hsame : final (mark_alerted sym ot st) = st).
    { unfold mark_alerted, bind, bind_int. rewrite Hr. simpl. rewrite Hdb. simpl.
      now rewrite Hrow. }
    rewrite Hsame. split; [| reflexivity].
    now rewrite (already_alerted_run _ _ _ rows), Hrow.
  - rewrite (mark_alerted_new _ _ _ rows) by assumption. simpl. split.
    + rewrite (already_alerted_run _ _ _ (rows ++ [(sym, ot)])) by easy.
      simpl. now rewrite has_row_app, has_row_self, orb_true_r.
    + intros sym' ot' Hneq.
      destruct (in_int64 ot') eqn:Hr'.
      * rewrite (already_alerted_run _ _ _ (rows ++ [(sym, ot)])) by easy.
        rewrite (already_alerted_run _ _ _ rows) by easy. simpl.
        rewrite has_row_app. unfold has_row at 2. simpl.
        now rewrite (row_eqb_neq _ _ Hneq), !orb_false_r.
      * now rewrite !already_alerted_out_of_range.
Qed.

(** X6: the table has to exist, and [db_init] sees to it.  Without the
    table, a lookup and an insert raise [OperationalError] and change
    nothing.  After [db_init] the lookup answers, from the rows the table
    already had, if any; [db_init] keeps these rows, and running it twice is
    running it once. *)
Theorem db_init_creates_table (sym : string) (ot : Z) (st : state) :
  in_int64 ot = true ->
  (db st = None ->
   value (already_alerted sym ot st) = inl OperationalError
   /\ value (mark_alerted sym ot st) = inl OperationalError
   /\ final (mark_alerted sym ot st) = st)
  /\ value (already_alerted sym ot (final (db_init st)))
     = inr (has_row (sym, ot) (default [] (db st)))
  /\ final (db_init (final (db_init st))) = final (db_init st)
  /\ (forall rows, db st = Some rows -> db (final (db_init st)) = Some rows).
Proof.
  intros Hr. split; [| split; [| split]].
  - intros Hdb. unfold already_alerted, mark_alerted, bind, bind_int.
    rewrite Hr. simpl. now rewrite Hdb.
  - now rewrite (already_alerted_run _ _ _ (default [] (db st))).
  - reflexivity.
  - intros rows Hdb. simpl. now rewrite Hdb.
Qed.

(** ** A cycle whose symbol universe cannot be fetched *)

Lemma get_symbols_fails cfg w st e :
  universe_failure w e ->
  get_symbols cfg w st = mk_outcome (inl e) st [GetExchangeInfo].
Proof.
  unfold get_symbols, bind, lift, raise_for_status, emit, ret, raise.
  intros [Hw | [[r [Hw [Hs ->]]] | [r [Hw [Hs Hj]]]]]; rewrite Hw; simpl.
  - reflexivity.
  - destruct (Z.leb_spec 400 (status r)); [reflexivity | lia].
  - destruct (Z.leb_spec 400 (status r)); [lia |]. simpl. now rewrite Hj.
Qed.

(** X7: [get_symbols] asks once and does not retry.  When the exchange-info
    request raises, is answered with a status from 400 on (429 included),
    or has a body that does not decode, [check_once] raises that exception
    after this single request: no kline is fetched, nothing is posted, and
    the table, created by [db_init], has the rows it had. *)
Theorem check_once_universe_failure (cfg : config) (w : world) (st : state) (e : exn) :
  universe_failure w e ->
  value (check_once cfg w st) = inl e
  /\ events (check_once cfg w st) = [GetExchangeInfo]
  /\ db (final (check_once cfg w st)) = Some (default [] (db st))
  /\ alerts (final (check_once cfg w st)) = alerts st.
Proof.
  intros H. unfold check_once.
  rewrite (bind_ok db_init _ st tt eq_refl).
  rewrite (bind_raise _ _ _ e) by now rewrite (get_symbols_fails cfg w _ e H).
  rewrite (get_symbols_fails cfg w _ e H). simpl. auto.
Qed.

(** ** What a worker can do to the state *)





(** ** One cycle, step by step *)

Lemma get_symbols_run cfg w st :
  final (get_symbols cfg w st) = st
  /\ events (get_symbols cfg w st) = [GetExchangeInfo].
Proof.
  unfold get_symbols, bind, lift, raise_for_status, emit, ret, raise.
  destruct (exchange_info w) as [e | r]; simpl; [auto |].
  destruct (400 <=? status r); simpl; [auto |].
  now destruct (json r).
Qed.

(** After [db_init] and [get_symbols], a cycle is the run of [gather] on the
    listed symbols, from the table as [db_init] left it and no alert. *)
Lemma check_once_run cfg w st symbols :
  value (get_symbols cfg w (final (db_init st))) = inr symbols ->
  check_once cfg w st =
    mk_outcome
      (match value (gather cfg w (listed cfg w) (mk_state (Some (default [] (db st))) [])) with
       | inl e => inl e
       | inr _ => inr (alerts (final (gather cfg w (listed cfg w)
                                        (mk_state (Some (default [] (db st))) []))))
       end)
      (final (gather cfg w (listed cfg w) (mk_state (Some (default [] (db st))) [])))
      (GetExchangeInfo ::
       events (gather cfg w (listed cfg w) (mk_state (Some (default [] (db st))) []))).
Proof.
  intros Hv. pose proof (get_symbols_value _ _ _ _ Hv) as ->.
  destruct (get_symbols_run cfg w (final (db_init st))) as [Hf He].
  unfold check_once.
  rewrite (bind_ok db_init _ st tt eq_refl).
  rewrite (bind_ok _ _ _ _ Hv), Hf, He.
  unfold bind, new_alerts, get_alerts. simpl.
  destruct (gather cfg w (listed cfg w) _) as [[e | []] f evs]; simpl;
    now rewrite ?app_nil_r.
Qed.


(** ** How many requests a cycle makes *)

Section Count.

Context {B : Type}.
Variable pick : event -> option B.

Lemma count_bind {A C} (m : M A) (g : A -> M C) (st : state) (n1 n2 : nat) :
  (length (omap pick (events (m st))) <= n1)%nat ->
  (forall a st', (length (omap pick (events (g a st'))) <= n2)%nat) ->
  (length (omap pick (events (bind m g st))) <= n1 + n2)%nat.
Proof.
  intros H1 H2. unfold bind.
  destruct (value (m st)) as [e | a]; simpl; [lia |].
  rewrite omap_app, length_app. specialize (H2 a (final (m st))). lia.
Qed.

Lemma count_none {A} (m : M A) (st : state) :
  events (m st) = [] -> (length (omap pick (events (m st))) <= 0)%nat.
Proof. intros ->. simpl. lia. Qed.

End Count.

Lemma mark_alerted_events sym ot st : events (mark_alerted sym ot st) = [].
Proof.
  unfold mark_alerted, bind, bind_int.
  destruct (in_int64 ot); simpl; [| reflexivity].
  destruct (db st) as [rows |]; simpl; [| reflexivity].
  now destruct (has_row (sym, ot) rows).
Qed.

Lemma already_alerted_events sym ot st : events (already_alerted sym ot st) = [].
Proof.
  unfold already_alerted, bind, bind_int.
  destruct (in_int64 ot); simpl; [| reflexivity].
  now destruct (db st).
Qed.

Lemma make_alert_text_events cfg sym k pct st :
  events (make_alert_text cfg sym k pct st) = [].
Proof.
  unfold make_alert_text, bind, lift.
  destruct (int_truediv (open_time k) 1000) as [e | secs]; simpl; [reflexivity |].
  now destruct (gmtime secs).
Qed.

Lemma send_telegram_at_most_3_posts w text st :
  (length (posts (events (send_telegram w text st))) <= 3)%nat.
Proof.
  destruct (for_range_posts (seq 0 3) (telegram_attempt w text) false text
              (telegram_attempt_posts w text) st) as [n [Hn [_ Hp]]].
  unfold send_telegram. rewrite Hp, repeat_length. exact Hn.
Qed.

Lemma evaluate_at_most_3_posts cfg w sym k st :
  (length (posts (events (evaluate cfg w sym k st))) <= 3)%nat.
Proof.
  unfold evaluate, posts.
  apply (count_bind _ _ _ _ 0 3); [destruct (percent_move k); simpl; lia |].
  intros pct st1. destruct (PyFloat.geb _ _); [| simpl; lia].
  apply (count_bind _ _ _ _ 0 3);
    [apply count_none, already_alerted_events |].
  intros seen st2. destruct (negb seen); [| simpl; lia].
  apply (count_bind _ _ _ _ 0 3);
    [apply count_none, make_alert_text_events |].
  intros text st3.
  apply (count_bind _ _ _ _ 3 0); [apply send_telegram_at_most_3_posts |].
  intros ok st4. destruct ok; [| simpl; lia].
  apply (count_bind _ _ _ _ 0 0); [apply count_none, mark_alerted_events |].
  intros _ st5. simpl. lia.
Qed.

Lemma no_kline_requests_app a b :
  kline_requests a = [] -> kline_requests b = [] -> kline_requests (a ++ b) = [].
Proof. unfold kline_requests. rewrite omap_app. now intros -> ->. Qed.

Lemma evaluate_no_kline_requests cfg w sym k st :
  kline_requests (events (evaluate cfg w sym k st)) = [].
Proof.
  assert (H : respects any_states (fun evs => kline_requests evs = [])
                (evaluate cfg w sym k)).
  { apply program_evaluate;
      solve [ apply no_kline_requests_app | easy ]. }
  apply H.
Qed.

Lemma worker_budget cfg w sym st :
  (length (kline_requests (events (worker cfg w sym st))) <= 3)%nat
  /\ (length (posts (events (worker cfg w sym st))) <= 3)%nat.
Proof.
  split; unfold worker.
  - replace 3%nat with (3 + 0)%nat by lia. apply count_bind.
    + apply (for_range_requests_bound (seq 0 3)). intros i st'.
      apply kline_attempt_one_request.
    + intros [k |] st'; [| simpl; lia].
      fold (kline_requests (events (evaluate cfg w sym k st'))).
      rewrite evaluate_no_kline_requests. simpl. lia.
  - replace 3%nat with (0 + 3)%nat by lia. apply count_bind.
    + destruct (get_latest_15m_kline_silent w sym st) as [_ Hp].
      fold (posts (events (get_latest_15m_kline w sym st))).
      rewrite Hp. simpl. lia.
    + intros [k |] st'; [apply evaluate_at_most_3_posts | simpl; lia].
Qed.

Lemma gather_budget cfg w symbols st :
  (length (kline_requests (events (gather cfg w symbols st))) <= 3 * length symbols)%nat
  /\ (length (posts (events (gather cfg w symbols st))) <= 3 * length symbols)%nat.
Proof.
  revert st. induction symbols as [| sym rest IH]; intros st; [simpl; lia |].
  cbn [gather length].
  replace (3 * S (length rest))%nat with (3 + 3 * length rest)%nat by lia.
  split.
  - apply count_bind; [apply worker_budget |]. intros _ st'. apply IH.
  - apply count_bind; [apply worker_budget |]. intros _ st'. apply IH.
Qed.

Lemma no_exchange_requests_app a b :
  exchange_requests a = [] -> exchange_requests b = [] ->
  exchange_requests (a ++ b) = [].
Proof. unfold exchange_requests. rewrite omap_app. now intros -> ->. Qed.

Lemma gather_no_exchange_requests cfg w symbols st :
  exchange_requests (events (gather cfg w symbols st)) = [].
Proof.
  assert (H : respects any_states (fun evs => exchange_requests evs = [])
                (gather cfg w symbols)).
  { apply program_gather;
      solve [ apply no_exchange_requests_app | easy ]. }
  apply H.
Qed.

(** X11: what one scan cycle costs.  [check_once] asks for the exchange
    info exactly once, asks for klines at most three times per listed
    symbol, and posts to Telegram at most three times per listed symbol. *)
Theorem cycle_request_budget (cfg : config) (w : world) (st : state) :
  length (exchange_requests (events (check_once cfg w st))) = 1%nat
  /\ (length (kline_requests (events (check_once cfg w st)))
      <= 3 * length (listed cfg w))%nat
  /\ (length (posts (events (check_once cfg w st))) <= 3 * length (listed cfg w))%nat.
Proof.
  destruct (value (get_symbols cfg w (final (db_init st)))) as [e | symbols] eqn:Hv.
  - assert (He : events (check_once cfg w st) = [GetExchangeInfo]).
    { unfold check_once. rewrite (bind_ok db_init _ st tt eq_refl).
      rewrite (bind_raise _ _ _ e Hv).
      destruct (get_symbols_run cfg w (final (db_init st))) as [_ Hev].
      cbn [events]. now rewrite Hev. }
    rewrite He. simpl. repeat split; lia.
  - rewrite (check_once_run cfg w st symbols Hv). simpl.
    destruct (gather_budget cfg w (listed cfg w)
                (mk_state (Some (default [] (db st))) [])) as [Hk Hp].
    rewrite gather_no_exchange_requests. repeat split; assumption.
Qed.

(** ** What ends the scheduler loop *)

Lemma loop_iteration_raise cfg w st e :
  value (loop_iteration cfg w st) = inl e ->
  is_Exception e = false \/ int_to_float (POLL_SECONDS cfg) = inl e.
Proof.
  unfold loop_iteration, try_except, bind, print, sleep, emit, lift, ret, raise.
  destruct (check_once cfg w st) as [[e' | sent] f evs]; simpl.
  - destruct (is_Exception e') eqn:He; simpl.
    + destruct (int_to_float (POLL_SECONDS cfg)) as [e'' | poll]; simpl;
        [intros [= ->]; now right | discriminate].
    + intros [= ->]. now left.
  - destruct sent; simpl;
      (destruct (int_to_float (POLL_SECONDS cfg)) as [e'' | poll]; simpl;
       [intros [= ->]; now right | discriminate]).
Qed.

Lemma loop_turns_raise cfg ws n i st e :
  value (loop_turns cfg ws i n st) = inl e ->
  is_Exception e = false \/ int_to_float (POLL_SECONDS cfg) = inl e.
Proof.
  revert i st. induction n as [| n IH]; intros i st; simpl; [discriminate |].
  unfold bind.
  destruct (value (loop_iteration cfg (ws i) st)) as [e' |] eqn:Hv; simpl.
  - intros [= ->]. now apply (loop_iteration_raise cfg (ws i) st).
  - apply IH.
Qed.

(** X12: the only exceptions that end [main_loop] are those that are not an
    [Exception] (an interrupt, a cancellation, an exit), and the
    [OverflowError] of a [POLL_SECONDS] too large for a float.  No other
    exception, raised anywhere in a cycle, leaves the loop. *)
Theorem main_loop_exits (cfg : config) (ws : nat -> world) (n : nat) (st : state)
    (e : exn) :
  value (main_loop cfg ws n st) = inl e ->
  is_Exception e = false \/ int_to_float (POLL_SECONDS cfg) = inl e.
Proof.
  unfold main_loop, bind, print, emit. simpl. intros H.
  apply (loop_turns_raise cfg ws n 0%nat st).
  now destruct (value (loop_turns cfg ws 0 n st)).
Qed.

(** ** Credentials and exclusions *)

(** X13: a configuration never has an empty credential.  When the module
    initialises, the bot token and the chat id are not empty; and when the
    other settings read well but neither the process environment nor the
    [.env] file defines one of the two, the module exits. *)
Theorem credentials_are_required
    (py_float : string -> option float) (py_int : string -> option Z)
    (env dotenv : gmap string string) :
  (forall cfg, module_init py_float py_int env dotenv = inr cfg ->
     TELEGRAM_BOT_TOKEN cfg <> "" /\ TELEGRAM_CHAT_ID cfg <> "")
  /\ (forall key,
        key = "TELEGRAM_BOT_TOKEN" \/ key = "TELEGRAM_CHAT_ID" ->
        env !! key = None -> dotenv !! key = None ->
        is_Some (py_float (getenv env "THRESHOLD" "6")) ->
        is_Some (py_int (getenv env "POLL_SECONDS" "60")) ->
        module_init py_float py_int env dotenv = inl SystemExit).
Proof.
  split.
  - intros cfg. unfold module_init, of_parse.
    destruct (py_float _); [| discriminate].
    destruct (py_int _); [| discriminate].
    destruct (bool_decide (strip (getenv (load_dotenv dotenv env)
                                    "TELEGRAM_BOT_TOKEN" "") = "")) eqn:Ht;
      [discriminate |].
    destruct (bool_decide (strip (getenv (load_dotenv dotenv env)
                                    "TELEGRAM_CHAT_ID" "") = "")) eqn:Hc;
      [discriminate |].
    simpl. intros [= <-]. simpl.
    apply bool_decide_eq_false in Ht, Hc. now split.
  - intros key Hkey He Hd [threshold Hth] [poll Hpo].
    unfold module_init, of_parse. rewrite Hth, Hpo.
    assert (Hmiss : getenv (load_dotenv dotenv env) key "" = "").
    { unfold getenv, load_dotenv. now rewrite (lookup_union_r _ _ _ He), Hd. }
    destruct Hkey as [-> | ->]; rewrite Hmiss; simpl.
    + reflexivity.
    + now rewrite orb_true_r.
Qed.

Lemma upper_rev_app s t :
  upper (String.rev_app s t) = String.rev_app (upper s) (upper t).
Proof.
  revert t. induction s as [| c s IH]; intros t; simpl; [reflexivity |].
  now rewrite IH.
Qed.

Lemma upper_rev s : upper (String.rev s) = String.rev (upper s).
Proof. apply upper_rev_app. Qed.

Lemma upper_ascii_comma c :
  Ascii.eqb (upper_ascii c) ","%char = Ascii.eqb c ","%char.
Proof.
  destruct c as [[] [] [] [] [] [] [] []]; reflexivity.
Qed.

Lemma split_comma_go_upper s acc :
  split_comma_go (upper s) (upper acc) = map upper (split_comma_go s acc).
Proof.
  revert acc. induction s as [| c s IH]; intros acc; simpl.
  - now rewrite upper_rev.
  - rewrite upper_ascii_comma. destruct (Ascii.eqb c ","%char); simpl.
    + rewrite upper_rev. f_equal. apply (IH EmptyString).
    + apply (IH (String c acc)).
Qed.

Lemma upper_empty s : upper s = "" -> s = "".
Proof. now destruct s. Qed.

(** X14: the exclusion list is taken in upper case.  When the process
    environment gives a non-empty EXCLUDED, every piece of it between two
    commas is in [EXCLUDED] once turned to upper case, so that a symbol can
    be excluded in whatever case it is written; and nothing else is. *)
Theorem excluded_setting_is_upper_cased
    (py_float : string -> option float) (py_int : string -> option Z)
    (env dotenv : gmap string string) (cfg : config) (v : string) :
  module_init py_float py_int env dotenv = inr cfg ->
  env !! "EXCLUDED" = Some v ->
  v <> "" ->
  forall sym, sym ∈ EXCLUDED cfg <-> exists piece, piece ∈ split_comma v /\ sym = upper piece.
Proof.
  intros Hinit He Hv sym.
  assert (Hx : EXCLUDED cfg = list_to_set (map upper (split_comma v))).
  { revert Hinit. unfold module_init, of_parse.
    destruct (py_float _); [| discriminate].
    destruct (py_int _); [| discriminate].
    destruct (_ || _); [discriminate |]. intros [= <-]. simpl.
    unfold read_EXCLUDED, getenv. rewrite He. simpl.
    rewrite bool_decide_eq_false_2 by assumption.
    unfold split_comma. now rewrite <- (split_comma_go_upper v EmptyString). }
  rewrite Hx, elem_of_list_to_set, list_elem_of_fmap. split.
  - intros [piece [-> Hp]]. eauto.
  - intros [piece [Hp ->]]. eauto.
Qed.

(** ** Candles that cannot qualify *)

Lemma evaluate_below cfg w sym k pct st :
  percent_move k = inr pct ->
  PyFloat.geb (PyFloat.abs pct) (THRESHOLD cfg) = false ->
  evaluate cfg w sym k st = mk_outcome (inr tt) st [].
Proof.
  intros Hpct Hge. unfold evaluate, bind, lift. rewrite Hpct. simpl.
  now rewrite Hge.
Qed.

Lemma worker_skips cfg w sym k pct st :
  value (get_latest_15m_kline w sym st) = inr (Some k) ->
  percent_move k = inr pct ->
  PyFloat.geb (PyFloat.abs pct) (THRESHOLD cfg) = false ->
  value (worker cfg w sym st) = inr tt
  /\ posts (events (worker cfg w sym st)) = []
  /\ final (worker cfg w sym st) = st.
Proof.
  intros Hk Hpct Hge.
  destruct (worker_fetched cfg w sym st k Hk) as [Hv [Hf Hp]].
  rewrite Hv, Hf, Hp, (evaluate_below cfg w sym k pct st) by assumption.
  auto.
Qed.

Lemma of_Z_100 : PyFloat.of_Z 100 = S754_finite false 7036874417766400 (-46).
Proof. reflexivity. Qed.

Lemma percent_move_flat k s m e :
  k_open k = S754_finite s m e ->
  k_close k = k_open k ->
  exists z, percent_move k = inr (S754_zero z).
Proof.
  intros Ho Hc. unfold percent_move, float_truediv. rewrite Hc, Ho.
  assert (Hsub : PyFloat.sub (S754_finite s m e) (S754_finite s m e) = S754_zero false).
  { unfold PyFloat.sub. cbn [SFsub]. now rewrite Z.sub_diag. }
  rewrite Hsub. cbn [PyFloat.is_zero]. rewrite of_Z_100.
  unfold PyFloat.ieee_div, PyFloat.mul. cbn [SFdiv SFmul]. eauto.
Qed.

(** X15: a candle that closes where it opened is never notified.  With a
    threshold above 0 and an open price that is finite and not 0, equal open
    and close make the move a zero: the worker returns without a post and
    without touching the state. *)
Theorem flat_candle_is_skipped
    (cfg : config) (w : world) (sym : string) (k : kline) (st : state)
    (s : bool) (m : positive) (e : Z) :
  value (get_latest_15m_kline w sym st) = inr (Some k) ->
  k_open k = S754_finite s m e ->
  k_close k = k_open k ->
  PyFloat.gtb (THRESHOLD cfg) (S754_zero false) = true ->
  value (worker cfg w sym st) = inr tt
  /\ posts (events (worker cfg w sym st)) = []
  /\ final (worker cfg w sym st) = st.
Proof.
  intros Hk Ho Hc Ht.
  destruct (percent_move_flat k s m e Ho Hc) as [z Hpct].
  apply (worker_skips cfg w sym k (S754_zero z) st Hk Hpct).
  apply ltb_not_geb. exact Ht.
Qed.

Lemma geb_nan_l x : PyFloat.geb S754_nan x = false.
Proof. unfold PyFloat.geb, PyFloat.leb, SFleb. now destruct x. Qed.

Lemma percent_move_non_finite k :
  PyFloat.is_infinite (k_open k) = true \/ k_open k = S754_nan ->
  percent_move k = inr S754_nan.
Proof.
  unfold percent_move, float_truediv. rewrite of_Z_100.
  intros [H | H].
  - destruct (k_open k) as [| so | |]; try discriminate.
    destruct (k_close k) as [sc | sc | | sc mc ec]; destruct so;
      try destruct sc; reflexivity.
  - rewrite H. now destruct (k_close k).
Qed.

(** X16: a candle whose open price is infinite or NaN is skipped without an
    exception.  Its move is NaN, which compares false with the threshold:
    the worker posts nothing and leaves the state alone. *)
Theorem non_finite_open_is_skipped
    (cfg : config) (w : world) (sym : string) (k : kline) (st : state) :
  value (get_latest_15m_kline w sym st) = inr (Some k) ->
  PyFloat.is_infinite (k_open k) = true \/ k_open k = S754_nan ->
  value (worker cfg w sym st) = inr tt
  /\ posts (events (worker cfg w sym st)) = []
  /\ final (worker cfg w sym st) = st.
Proof.
  intros Hk Ho.
  apply (worker_skips cfg w sym k S754_nan st Hk (percent_move_non_finite k Ho)).
  apply geb_nan_l.
Qed.

(** ** Exceptions that leave the worker *)


(** X18: an exception that leaves [send_telegram] leaves the worker.  For a
    qualifying candle whose key is not on record, the worker raises what
    [send_telegram] raises, after the same posts, and records nothing. *)
Theorem send_exception_leaves_worker
    (cfg : config) (w : world) (sym : string) (k : kline) (pct : float)
    (text : string) (st : state) (rows : list (string * Z)) (e : exn) :
  db st = Some rows ->
  value (get_latest_15m_kline w sym st) = inr (Some k) ->
  percent_move k = inr pct ->
  PyFloat.geb (PyFloat.abs pct) (THRESHOLD cfg) = true ->
  in_int64 (open_time k) = true ->
  has_row (sym, open_time k) rows = false ->
  value (make_alert_text cfg sym k pct st) = inr text ->
  value (send_telegram w text st) = inl e ->
  value (worker cfg w sym st) = inl e
  /\ final (worker cfg w sym st) = st
  /\ posts (events (worker cfg w sym st)) = posts (events (send_telegram w text st)).
Proof.
  intros Hdb Hk Hpct Hge Hr Hrow Htext Hs.
  destruct (worker_fetched cfg w sym st k Hk) as [Hv [Hf Hp]].
  rewrite Hv, Hf, Hp, (evaluate_qualifying cfg w sym k pct text st rows) by assumption.
  now rewrite Hs.
Qed.

(** ** The further theorems at concrete inputs *)

(** Telegram answers 401 to every post; and 502, then 200. *)
Lemma send_telegram_retries_witness :
  (value (send_telegram unauthorized_world abc_text empty_table) = inr false
   /\ final (send_telegram unauthorized_world abc_text empty_table) = empty_table
   /\ sleeps (events (send_telegram unauthorized_world abc_text empty_table))
      = [PyInt 1; PyInt 3; PyInt 5])
  /\ (value (send_telegram flaky_telegram_world abc_text empty_table) = inr true
      /\ posts (events (send_telegram flaky_telegram_world abc_text empty_table))
         = [abc_text; abc_text]
      /\ sleeps (events (send_telegram flaky_telegram_world abc_text empty_table))
         = [PyInt 1]).
Proof.
  split.
  - destruct (send_telegram_retries unauthorized_world abc_text empty_table)
      as [_ [H _]].
    apply H. intros i _. reflexivity.
  - destruct (send_telegram_retries flaky_telegram_world abc_text empty_table)
      as [_ [_ H]].
    apply (H 1%nat 200 (inr tt)).
    + lia.
    + intros [| i] Hi; [reflexivity | lia].
    + reflexivity.
    + lia.
Defined.

(** The post to Telegram times out at the first attempt. *)
Lemma send_telegram_raises_witness :
  value (send_telegram telegram_timeout_world abc_text empty_table) = inl TimeoutError
  /\ final (send_telegram telegram_timeout_world abc_text empty_table) = empty_table
  /\ posts (events (send_telegram telegram_timeout_world abc_text empty_table))
     = [abc_text]
  /\ sleeps (events (send_telegram telegram_timeout_world abc_text empty_table)) = [].
Proof.
  apply (send_telegram_raises telegram_timeout_world abc_text empty_table 0%nat
           TimeoutError).
  - lia.
  - intros i Hi. lia.
  - reflexivity.
  - reflexivity.
Defined.

(** The kline request is answered 429, then times out. *)
Lemma get_latest_15m_kline_raises_witness :
  value (get_latest_15m_kline timeout_world "ABCUSDT" empty_table) = inl TimeoutError
  /\ final (get_latest_15m_kline timeout_world "ABCUSDT" empty_table) = empty_table
  /\ kline_requests (events (get_latest_15m_kline timeout_world "ABCUSDT" empty_table))
     = [("ABCUSDT", 0%nat); ("ABCUSDT", 1%nat)]
  /\ value (worker cfg_default timeout_world "ABCUSDT" empty_table) = inl TimeoutError
  /\ final (worker cfg_default timeout_world "ABCUSDT" empty_table) = empty_table.
Proof.
  apply (get_latest_15m_kline_raises cfg_default timeout_world "ABCUSDT" empty_table
           1%nat TimeoutError).
  - lia.
  - intros [| i] Hi; [reflexivity | lia].
  - split; [reflexivity | left; reflexivity].
Defined.

(** Marking (ABCUSDT, 1000) in an empty table. *)
Lemma mark_then_lookup_witness :
  value (already_alerted "ABCUSDT" 1000
           (final (mark_alerted "ABCUSDT" 1000 empty_table))) = inr true
  /\ forall sym' ot',
       (sym', ot') <> ("ABCUSDT", 1000) ->
       value (already_alerted sym' ot'
                (final (mark_alerted "ABCUSDT" 1000 empty_table)))
       = value (already_alerted sym' ot' empty_table).
Proof.
  apply (mark_then_lookup "ABCUSDT" 1000 empty_table []); reflexivity.
Defined.

(** A database file without the table. *)
Lemma db_init_creates_table_witness :
  value (already_alerted "ABCUSDT" 1000 fresh) = inl OperationalError
  /\ value (mark_alerted "ABCUSDT" 1000 fresh) = inl OperationalError
  /\ value (already_alerted "ABCUSDT" 1000 (final (db_init fresh))) = inr false.
Proof.
  destruct (db_init_creates_table "ABCUSDT" 1000 fresh eq_refl)
    as [Hnone [Hlookup _]].
  destruct (Hnone eq_refl) as [H1 [H2 _]].
  split; [exact H1 |]. split; [exact H2 | exact Hlookup].
Defined.

(** The table after the alert for ABCUSDT and one more cycle on ABCUSDT and
    XYZUSDT. *)
Lemma table_stays_well_formed_witness :
  table_ok (run_cycles
              [(cfg_default, calm_world [("ABCUSDT", candle_abc); ("XYZUSDT", candle_xyz)])]
              after_first_alert).
Proof.
  apply table_stays_well_formed.
  assert (H : db after_first_alert = Some [("ABCUSDT", 1000)])
    by (vm_compute; reflexivity).
  unfold table_ok. rewrite H. split.
  - apply NoDup_singleton.
  - repeat constructor.
Defined.

(** The exchange-info request fails at the connection level. *)
Lemma check_once_universe_failure_witness :
  value (check_once cfg_default universe_down fresh) = inl ClientError
  /\ events (check_once cfg_default universe_down fresh) = [GetExchangeInfo]
  /\ db (final (check_once cfg_default universe_down fresh)) = Some (default [] (db fresh))
  /\ alerts (final (check_once cfg_default universe_down fresh)) = alerts fresh.
Proof.
  apply (check_once_universe_failure cfg_default universe_down fresh ClientError).
  left. reflexivity.
Defined.


(** The kline request of the cycle on ABCUSDT. *)
Lemma excluded_symbols_are_never_fetched_witness :
  "ABCUSDT" ∈ listed cfg_default (calm_world [("ABCUSDT", candle_abc)])
  /\ "ABCUSDT" <> "" /\ "ABCUSDT" ∉ EXCLUDED cfg_default.
Proof.
  apply (excluded_symbols_are_never_fetched cfg_default
           (calm_world [("ABCUSDT", candle_abc)]) fresh "ABCUSDT" 0%nat).
  apply list_elem_of_In. vm_compute. right. left. reflexivity.
Defined.

(** The interrupt reaches the loop in its first turn. *)
Lemma main_loop_exits_witness :
  is_Exception KeyboardInterrupt = false
  \/ int_to_float (POLL_SECONDS cfg_default) = inl KeyboardInterrupt.
Proof.
  apply (main_loop_exits cfg_default (fun _ => interrupted_world) 2 fresh
           KeyboardInterrupt).
  vm_compute. reflexivity.
Defined.

(** The [.env] file that sets everything gives a token and a chat id; no
    environment and no file give none. *)
Lemma credentials_are_required_witness :
  (TELEGRAM_BOT_TOKEN cfg_from_full_dotenv <> ""
   /\ TELEGRAM_CHAT_ID cfg_from_full_dotenv <> "")
  /\ module_init read_float read_int ∅ ∅ = inl SystemExit.
Proof.
  split.
  - destruct (credentials_are_required read_float read_int ∅ full_dotenv) as [H _].
    apply H. vm_compute. reflexivity.
  - destruct (credentials_are_required read_float read_int ∅ ∅) as [_ H].
    apply (H "TELEGRAM_BOT_TOKEN").
    + left. reflexivity.
    + reflexivity.
    + reflexivity.
    + eexists. reflexivity.
    + eexists. reflexivity.
Defined.

(** EXCLUDED=btcusdt,ethusdt excludes BTCUSDT. *)
Lemma excluded_setting_is_upper_cased_witness :
  "BTCUSDT" ∈ EXCLUDED cfg_excluding.
Proof.
  apply (excluded_setting_is_upper_cased read_float read_int env_excluding ∅
           cfg_excluding "btcusdt,ethusdt").
  - vm_compute. reflexivity.
  - reflexivity.
  - discriminate.
  - exists "btcusdt". split; [| reflexivity].
    apply list_elem_of_In. vm_compute. left. reflexivity.
Defined.

(** A candle that opened and closed at 100.0, under the threshold of 6. *)
Lemma flat_candle_is_skipped_witness :
  value (worker cfg_default (calm_world [("FLATUSDT", candle_flat)]) "FLATUSDT"
           empty_table) = inr tt
  /\ posts (events (worker cfg_default (calm_world [("FLATUSDT", candle_flat)])
                      "FLATUSDT" empty_table)) = []
  /\ final (worker cfg_default (calm_world [("FLATUSDT", candle_flat)]) "FLATUSDT"
              empty_table) = empty_table.
Proof.
  apply (flat_candle_is_skipped cfg_default (calm_world [("FLATUSDT", candle_flat)])
           "FLATUSDT" candle_flat empty_table false 7036874417766400 (-46));
    reflexivity.
Defined.

(** A candle whose open price is NaN. *)
Lemma non_finite_open_is_skipped_witness :
  value (worker cfg_default (calm_world [("NANUSDT", candle_nan)]) "NANUSDT"
           empty_table) = inr tt
  /\ posts (events (worker cfg_default (calm_world [("NANUSDT", candle_nan)])
                      "NANUSDT" empty_table)) = []
  /\ final (worker cfg_default (calm_world [("NANUSDT", candle_nan)]) "NANUSDT"
              empty_table) = empty_table.
Proof.
  apply (non_finite_open_is_skipped cfg_default (calm_world [("NANUSDT", candle_nan)])
           "NANUSDT" candle_nan empty_table).
  - reflexivity.
  - right. reflexivity.
Defined.


(** ABCUSDT qualifies and the post to Telegram times out. *)
Lemma send_exception_leaves_worker_witness :
  value (worker cfg_default telegram_timeout_world "ABCUSDT" empty_table)
    = inl TimeoutError
  /\ final (worker cfg_default telegram_timeout_world "ABCUSDT" empty_table)
     = empty_table
  /\ posts (events (worker cfg_default telegram_timeout_world "ABCUSDT" empty_table))
     = posts (events (send_telegram telegram_timeout_world abc_text empty_table)).
Proof.
  apply (send_exception_leaves_worker cfg_default telegram_timeout_world "ABCUSDT"
           candle_abc (PyFloat.of_Z (-6)) abc_text empty_table [] TimeoutError);
    vm_compute; reflexivity.
Defined.
